(** * An Instruction List interpreter (il_interpreter.py), embedded in Rocq

    The interpreter owns a register table (a Python dict from names to
    ints or bools), a program (a list of command objects), a program
    counter and a label table.  Commands mutate the interpreter in place
    and may raise; the embedding threads the interpreter through a small
    state-and-exception monad whose result always carries the interpreter
    as it stands when the call returns or raises, so that what a failed
    call leaves behind can be stated.

    Text is modelled as [string] whose characters are the code points
    0..255.  Python's [int] is arbitrary precision and is modelled as [Z];
    the interpreter-wide cap on the length of decimal numerals that recent
    CPython versions apply in [int(str)] is not modelled. *)

From Stdlib Require Import ZArith Lia Ascii.
From stdpp Require Import gmap strings list fin_maps.

Local Open Scope string_scope.
Local Open Scope Z_scope.

(** ** Python values held by registers *)

Inductive value : Type :=
  | VInt (z : Z)
  | VBool (b : bool).

(** [bool] is a subclass of [int]: [True] counts as 1 in arithmetic. *)
Definition to_int (v : value) : Z :=
  match v with
  | VInt z => z
  | VBool true => 1
  | VBool false => 0
  end.

(** Truth value of a register in an [if]. *)
Definition truthy (v : value) : bool :=
  match v with
  | VInt z => negb (z =? 0)
  | VBool b => b
  end.

Definition MASK : Z := 0xFFFFFFFF.

(** [v & 0xFFFFFFFF]; the result is an [int] also when [v] is a bool. *)
Definition mask32 (z : Z) : Z := Z.land z MASK.

(** ** Exceptions *)

Inductive exception : Type :=
  | ValueError (msg : string)
  | ZeroDivisionError
  | KeyError (key : string)
  | TypeError
  | IndexError.

(** ** Python string operations used by the loader and the evaluator *)

Module PyStr.

Definition code (c : ascii) : Z := Z.of_N (N_of_ascii c).

(** [str.isspace] on one character (code points below 256). *)
Definition isspace (c : ascii) : bool :=
  let n := code c in
  ((9 <=? n) && (n <=? 13)) || ((28 <=? n) && (n <=? 32))
  || (n =? 133) || (n =? 160).

Definition is_empty (s : string) : bool :=
  match s with EmptyString => true | String _ _ => false end.

Fixpoint lstrip (s : string) : string :=
  match s with
  | EmptyString => EmptyString
  | String c s' => if isspace c then lstrip s' else s
  end.

Fixpoint rstrip (s : string) : string :=
  match s with
  | EmptyString => EmptyString
  | String c s' =>
      let r := rstrip s' in
      if isspace c && is_empty r then EmptyString else String c r
  end.

(** [s.strip()] *)
Definition strip (s : string) : string := rstrip (lstrip s).

(** Cut [s] at every character satisfying [p]; the pieces may be empty
    and there is always at least one. *)
Fixpoint split_at (p : ascii -> bool) (s : string) : list string :=
  match s with
  | EmptyString => [EmptyString]
  | String c s' =>
      if p c then EmptyString :: split_at p s'
      else match split_at p s' with
           | h :: t => String c h :: t
           | [] => [String c EmptyString]
           end
  end.

(** [s.split('\n')] *)
Definition split_lines (s : string) : list string :=
  split_at (fun c => code c =? 10) s.

(** [s.split()]: runs of whitespace separate, no empty piece is kept. *)
Definition split (s : string) : list string :=
  List.filter (fun w => negb (is_empty w)) (split_at isspace s).

(** [':' in s] and [s.split(':', 1)] in one: the text before and after
    the first colon, [None] when there is no colon. *)
Fixpoint split_colon (s : string) : option (string * string) :=
  match s with
  | EmptyString => None
  | String c s' =>
      if code c =? 58 then Some (EmptyString, s')
      else match split_colon s' with
           | Some (a, b) => Some (String c a, b)
           | None => None
           end
  end.

(** [s.startswith(p)] *)
Fixpoint startswith (p s : string) : bool :=
  match p, s with
  | EmptyString, _ => true
  | String a p', String b s' => (code a =? code b) && startswith p' s'
  | String _ _, EmptyString => false
  end.

(** [s[n:]] *)
Fixpoint drop (n : nat) (s : string) : string :=
  match n, s with
  | O, _ => s
  | S n', String _ s' => drop n' s'
  | S _, EmptyString => EmptyString
  end.

Fixpoint forallb (p : ascii -> bool) (s : string) : bool :=
  match s with
  | EmptyString => true
  | String c s' => p c && forallb p s'
  end.

Definition is_decimal_char (c : ascii) : bool :=
  (48 <=? code c) && (code c <=? 57).

(** Characters with the Unicode digit property below 256: the ten decimal
    digits and the superscripts two, three and one. *)
Definition is_digit_char (c : ascii) : bool :=
  is_decimal_char c || (code c =? 178) || (code c =? 179) || (code c =? 185).

(** [s.isdigit()] *)
Definition isdigit (s : string) : bool :=
  negb (is_empty s) && forallb is_digit_char s.

Fixpoint decimal_value (acc : Z) (s : string) : Z :=
  match s with
  | EmptyString => acc
  | String c s' => decimal_value (10 * acc + (code c - 48)) s'
  end.

(** [int(s)] on a string for which [isdigit] holds: the superscript
    digits are digits but not decimals, and [int] rejects them. *)
Definition int_decimal (s : string) : option Z :=
  if negb (is_empty s) && forallb is_decimal_char s
  then Some (decimal_value 0 s) else None.

Definition hex_digit (c : ascii) : option Z :=
  let n := code c in
  if (48 <=? n) && (n <=? 57) then Some (n - 48)
  else if (97 <=? n) && (n <=? 102) then Some (n - 87)
  else if (65 <=? n) && (n <=? 70) then Some (n - 55)
  else None.

(** White space that [int] skips around a numeral: the C locale's, and
    the two Unicode spaces below 256 that it first turns into blanks. *)
Definition is_int_space (c : ascii) : bool :=
  let n := code c in
  ((9 <=? n) && (n <=? 13)) || (n =? 32) || (n =? 133) || (n =? 160).

Fixpoint skip_int_space (s : string) : string :=
  match s with
  | EmptyString => EmptyString
  | String c s' => if is_int_space c then skip_int_space s' else s
  end.

(** Digits of a base 16 numeral with single underscores between them.
    [prev_us] tells whether the previous character was an underscore,
    [n] counts the digits read.  The scan stops at the first character
    that is neither; what follows must be white space only. *)
Fixpoint hex_scan (prev_us : bool) (n : nat) (acc : Z) (s : string)
  : option Z :=
  match s with
  | EmptyString =>
      if prev_us then None else
      match n with O => None | S _ => Some acc end
  | String c s' =>
      if code c =? 95 then
        if prev_us then None else hex_scan true n acc s'
      else
        match hex_digit c with
        | Some d => hex_scan false (S n) (16 * acc + d) s'
        | None =>
            if prev_us then None else
            match n with
            | O => None
            | S _ => if is_empty (skip_int_space s) then Some acc else None
            end
        end
  end.

Definition skip_hex_prefix (s : string) : string :=
  match s with
  | String c0 (String c1 s') =>
      if (code c0 =? 48) && ((code c1 =? 120) || (code c1 =? 88)) then
        match s' with
        | String c2 s'' => if code c2 =? 95 then s'' else s'
        | EmptyString => s'
        end
      else s
  | _ => s
  end.

(** [int(s, 16)]: optional sign, optional [0x], digits; [None] stands for
    the [ValueError] it raises. *)
Definition int_hex (s : string) : option Z :=
  let s := skip_int_space s in
  let '(sign, s) :=
    match s with
    | String c s' =>
        if code c =? 43 then (1, s')
        else if code c =? 45 then (-1, s')
        else (1, s)
    | EmptyString => (1, s)
    end in
  let s := skip_hex_prefix s in
  match s with
  | String c _ =>
      if code c =? 95 then None
      else match hex_scan false 0 0 s with
           | Some v => Some (sign * v)
           | None => None
           end
  | EmptyString => None
  end.

End PyStr.

(** ** Commands

    The class hierarchy of the source: [BinaryCommand] and
    [ConditionalCommand] are abstract and their subclasses differ in
    [apply_operation] only; [AndnCommand] is the one subclass of
    [NotBinaryCommand], which overrides [execute]; the three jumps each
    have an [execute] of their own. *)

Inductive BinaryKind : Type :=
  | AndCommand | OrCommand | AddCommand | SubCommand | OrnCommand
  | XorCommand | XornCommand | MulCommand | DivCommand | ModCommand.

Inductive ConditionalKind : Type :=
  | SCommand | RCommand.

Inductive Command : Type :=
  | LoadCommand (expression : string)
  | StoreCommand (variable : string)
  | BinaryCommand (k : BinaryKind) (expression : string)
  | AndnCommand (expression : string)
  | NotCommand
  | ConditionalCommand (k : ConditionalKind) (variable : string)
  | JmpCommand (label : string)
  | JmpcCommand (label : string)
  | JmpncCommand (label : string).

(** ** The interpreter object *)

Record ILInterpreter : Type := mkIL {
  registers : gmap string value;
  program : list Command;
  program_counter : Z;
  labels : gmap string Z
}.

(** [ILInterpreter.__init__] *)
Definition init : ILInterpreter :=
  {| registers := {[ "ACC" := VInt 0 ]};
     program := [];
     program_counter := 0;
     labels := ∅ |}.

Definition set_registers (r : gmap string value) (s : ILInterpreter) :=
  {| registers := r; program := program s;
     program_counter := program_counter s; labels := labels s |}.

Definition set_program_counter (pc : Z) (s : ILInterpreter) :=
  {| registers := registers s; program := program s;
     program_counter := pc; labels := labels s |}.

(** ** Calls that mutate the interpreter and may raise *)

Inductive outcome (A : Type) : Type :=
  | Returned (a : A)
  | Raised (e : exception).
Arguments Returned {A} a.
Arguments Raised {A} e.

(** A method call: from the interpreter before the call to how the call
    ends and the interpreter as the call leaves it. *)
Definition M (A : Type) : Type := ILInterpreter -> outcome A * ILInterpreter.

Definition ret {A} (a : A) : M A := fun s => (Returned a, s).

Definition raise {A} (e : exception) : M A := fun s => (Raised e, s).

Definition bind {A B} (m : M A) (k : A -> M B) : M B :=
  fun s =>
    match m s with
    | (Returned a, s') => k a s'
    | (Raised e, s') => (Raised e, s')
    end.

Notation "'do' x <- m ; k" := (bind m (fun x => k))
  (at level 10, x name, m at level 100, k at level 200,
   format "'[v' 'do'  x  <-  m ; '/' k ']'").
Notation "m ;; k" := (bind m (fun _ => k))
  (at level 100, k at level 200, right associativity).

(** [interpreter.registers[name]], a [KeyError] when absent *)
Definition read_register (name : string) : M value :=
  fun s =>
    match registers s !! name with
    | Some v => (Returned v, s)
    | None => (Raised (KeyError name), s)
    end.

(** [interpreter.registers[name] = v] *)
Definition write_register (name : string) (v : value) : M unit :=
  fun s => (Returned tt, set_registers (<[name := v]> (registers s)) s).

(** [interpreter.labels[name]], a [KeyError] when absent *)
Definition read_label (name : string) : M Z :=
  fun s =>
    match labels s !! name with
    | Some i => (Returned i, s)
    | None => (Raised (KeyError name), s)
    end.

(** [interpreter.program_counter = pc] *)
Definition write_program_counter (pc : Z) : M unit :=
  fun s => (Returned tt, set_program_counter pc s).

(** ** ILInterpreter.evaluate_expression *)

(** The message of the [ValueError] of [int]; the literal is quoted as it
    is, not escaped as [repr] would.  The message is only printed. *)
Definition invalid_literal (base : string) (s : string) : string :=
  "invalid literal for int() with base " +:+ base +:+ ": '" +:+ s +:+ "'".

(** The body of the [try]. *)
Definition evaluate_expression_try (regs : gmap string value)
    (expression : string) : outcome Z :=
  if PyStr.isdigit expression then
    match PyStr.int_decimal expression with
    | Some n => Returned (mask32 n)
    | None => Raised (ValueError (invalid_literal "10" expression))
    end
  else if PyStr.startswith "16#" expression then
    match PyStr.int_hex (PyStr.drop 3 expression) with
    | Some n => Returned (mask32 n)
    | None =>
        Raised (ValueError (invalid_literal "16" (PyStr.drop 3 expression)))
    end
  else
    match regs !! expression with
    | Some v => Returned (mask32 (to_int v))
    | None => Raised (ValueError ("Unknown expression: " +:+ expression))
    end.

(** The whole method: a [ValueError] of the body is caught (and printed)
    and 0 is returned in its place. *)
Definition evaluate_expression (expression : string) : M Z :=
  fun s =>
    match evaluate_expression_try (registers s) expression with
    | Returned v => (Returned v, s)
    | Raised (ValueError _) => (Returned 0, s)
    | Raised e => (Raised e, s)
    end.

(** ** ILInterpreter.debug_registers

    Every value is an [int] instance (a bool is one), so every value is
    replaced by its masked integer.  The printing is not modelled. *)
Definition debug_registers : M unit :=
  fun s =>
    (Returned tt,
     set_registers ((fun v => VInt (mask32 (to_int v))) <$> registers s) s).

(** [debug_decorator]: run the method, then [debug_registers]; when the
    method raises, [debug_registers] is not reached. *)
Definition debug_decorator {A} (func : M A) : M A :=
  do result <- func;
  debug_registers;;
  ret result.

(** ** The commands' [execute] *)

(** [apply_operation] of the subclasses of [BinaryCommand] *)
Definition apply_operation (k : BinaryKind) (value : Z) : M unit :=
  match k with
  | AndCommand =>
      do acc <- read_register "ACC";
      let result := Z.land (to_int acc) value in
      write_register "ACC" (VInt (mask32 result))
  | OrCommand =>
      do acc <- read_register "ACC";
      let result := Z.lor (to_int acc) value in
      write_register "ACC" (VInt (mask32 result))
  | AddCommand =>
      do acc <- read_register "ACC";
      let result := to_int acc + value in
      write_register "ACC" (VInt (mask32 result))
  | SubCommand =>
      do acc <- read_register "ACC";
      let result := to_int acc - value in
      write_register "ACC" (VInt (mask32 result))
  | OrnCommand =>
      let inverted_value := mask32 (Z.lnot value) in
      do acc <- read_register "ACC";
      let result := Z.lor (to_int acc) inverted_value in
      write_register "ACC" (VInt (mask32 result))
  | XorCommand =>
      do acc <- read_register "ACC";
      write_register "ACC" (VInt (Z.lxor (to_int acc) value))
  | XornCommand =>
      let inverted_value := mask32 (Z.lnot value) in
      do acc <- read_register "ACC";
      let result := Z.lxor (to_int acc) inverted_value in
      write_register "ACC" (VInt (mask32 result))
  | MulCommand =>
      do acc <- read_register "ACC";
      write_register "ACC" (VInt (to_int acc * value))
  | DivCommand =>
      do acc <- read_register "ACC";
      if value =? 0 then raise ZeroDivisionError
      else write_register "ACC" (VInt (to_int acc / value))
  | ModCommand =>
      do acc <- read_register "ACC";
      if value =? 0 then raise ZeroDivisionError
      else write_register "ACC" (VInt (to_int acc mod value))
  end.

(** [apply_operation] of [AndnCommand] *)
Definition AndnCommand_apply_operation (value : Z) : M unit :=
  let inverted_value := mask32 (Z.lnot value) in
  do acc <- read_register "ACC";
  let result := mask32 (Z.land (to_int acc) inverted_value) in
  write_register "ACC" (VInt result).

(** [apply_operation] of the subclasses of [ConditionalCommand] *)
Definition Conditional_apply_operation (k : ConditionalKind)
    (variable : string) : M unit :=
  match k with
  | SCommand => write_register variable (VBool true)
  | RCommand => write_register variable (VBool false)
  end.

(** [execute], with the decorator each definition carries in the source *)
Definition execute (c : Command) : M unit :=
  match c with
  | LoadCommand expression =>
      debug_decorator (
        do v <- evaluate_expression expression;
        write_register "ACC" (VInt (mask32 v)))
  | StoreCommand variable =>
      debug_decorator (
        do acc <- read_register "ACC";
        write_register variable acc)
  | BinaryCommand k expression =>
      debug_decorator (
        do v <- evaluate_expression expression;
        let value := mask32 v in
        apply_operation k value;;
        do acc <- read_register "ACC";
        write_register "ACC" (VInt (mask32 (to_int acc))))
  | AndnCommand expression =>
      debug_decorator (
        do v <- evaluate_expression expression;
        let value := mask32 v in
        AndnCommand_apply_operation value)
  | NotCommand =>
      debug_decorator (
        do acc <- read_register "ACC";
        let result := Z.lnot (to_int acc) in
        write_register "ACC" (VInt (mask32 result)))
  | ConditionalCommand k variable =>
      debug_decorator (
        do acc <- read_register "ACC";
        if truthy acc then Conditional_apply_operation k variable
        else ret tt)
  | JmpCommand label =>
      debug_decorator (
        do target <- read_label label;
        write_program_counter (target - 1))
  | JmpcCommand label =>
      debug_decorator (
        do acc <- read_register "ACC";
        if truthy acc then
          do target <- read_label label;
          write_program_counter (target - 1)
        else ret tt)
  | JmpncCommand label =>
      debug_decorator (
        do acc <- read_register "ACC";
        if negb (truthy acc) then
          do target <- read_label label;
          write_program_counter (target - 1)
        else ret tt)
  end.

(** ** ILInterpreter.run *)

(** [program[i]] with Python's indexing: a negative index counts from the
    end, an index out of range raises [IndexError]. *)
Definition getitem (l : list Command) (i : Z) : option Command :=
  let n := Z.of_nat (length l) in
  if 0 <=? i then l !! Z.to_nat i
  else if - n <=? i then l !! Z.to_nat (n + i)
  else None.

(** One turn of the [while] loop: fetch, execute, increment. *)
Definition loop_body : M unit :=
  fun s =>
    match getitem (program s) (program_counter s) with
    | None => (Raised IndexError, s)
    | Some command =>
        (execute command;;
         fun s' =>
           (Returned tt, set_program_counter (program_counter s' + 1) s')) s
    end.

(** The loop condition [program_counter < len(program)]. *)
Definition running (s : ILInterpreter) : bool :=
  program_counter s <? Z.of_nat (length (program s)).

(** The loop, cut off after [fuel] turns: [None] when the loop has not
    ended by then. *)
Fixpoint run (fuel : nat) (s : ILInterpreter)
  : option (outcome unit * ILInterpreter) :=
  if running s then
    match fuel with
    | O => None
    | S fuel' =>
        match loop_body s with
        | (Returned _, s') => run fuel' s'
        | (Raised e, s') => Some (Raised e, s')
        end
    end
  else Some (Returned tt, s).

(** ** ILParser.parse *)

(** What calling a class of [command_map] with the operands needs: the
    classes with an [__init__] take exactly one operand, [NotCommand]
    takes none. *)
Inductive constructor : Type :=
  | Unary (f : string -> Command)
  | Nullary (c : Command).

Definition command_map : list (string * constructor) :=
  [ ("LD", Unary LoadCommand);
    ("ST", Unary StoreCommand);
    ("AND", Unary (BinaryCommand AndCommand));
    ("ANDN", Unary AndnCommand);
    ("OR", Unary (BinaryCommand OrCommand));
    ("ORN", Unary (BinaryCommand OrnCommand));
    ("XOR", Unary (BinaryCommand XorCommand));
    ("XORN", Unary (BinaryCommand XornCommand));
    ("ADD", Unary (BinaryCommand AddCommand));
    ("SUB", Unary (BinaryCommand SubCommand));
    ("MUL", Unary (BinaryCommand MulCommand));
    ("DIV", Unary (BinaryCommand DivCommand));
    ("MOD", Unary (BinaryCommand ModCommand));
    ("NOT", Nullary NotCommand);
    ("S", Unary (ConditionalCommand SCommand));
    ("R", Unary (ConditionalCommand RCommand));
    ("JMP", Unary JmpCommand);
    ("JMPC", Unary JmpcCommand);
    ("JMPNC", Unary JmpncCommand) ].

(** [command in command_map] and [command_map[command]] *)
Definition lookup_command (command : string) : option constructor :=
  match List.find (fun kv => String.eqb (fst kv) command) command_map with
  | Some kv => Some (snd kv)
  | None => None
  end.

(** [cls( *args )]: a wrong number of operands is a [TypeError]. *)
Definition construct (cls : constructor) (args : list string)
  : outcome Command :=
  match cls, args with
  | Unary f, [a] => Returned (f a)
  | Nullary c, [] => Returned c
  | _, _ => Raised TypeError
  end.

Definition parse (line : string) : outcome Command :=
  match PyStr.split line with
  | [] => Raised IndexError
  | command :: args =>
      match lookup_command command with
      | Some cls => construct cls args
      | None => Raised (ValueError ("Unknown instruction " +:+ command))
      end
  end.

(** ** ILInterpreter.load_program *)

Definition set_labels (l : gmap string Z) (s : ILInterpreter) :=
  {| registers := registers s; program := program s;
     program_counter := program_counter s; labels := l |}.

Definition set_program (p : list Command) (s : ILInterpreter) :=
  {| registers := registers s; program := p;
     program_counter := program_counter s; labels := labels s |}.

(** The non-blank lines, stripped. *)
Definition program_lines (text : string) : list string :=
  List.map PyStr.strip
    (List.filter (fun line => negb (PyStr.is_empty (PyStr.strip line)))
       (PyStr.split_lines text)).

(** The body of the [for] loop for one line. *)
Definition load_line (line : string) : M unit :=
  fun s =>
    let '(line, s) :=
      match PyStr.split_colon line with
      | Some (label, rest) =>
          (PyStr.strip rest,
           set_labels (<[PyStr.strip label := Z.of_nat (length (program s))]>
                         (labels s)) s)
      | None => (line, s)
      end in
    if PyStr.is_empty line then (Returned tt, s)
    else
      match parse line with
      | Returned c => (Returned tt, set_program (program s ++ [c]) s)
      | Raised e => (Raised e, s)
      end.

Fixpoint load_lines (lines : list string) : M unit :=
  match lines with
  | [] => ret tt
  | line :: rest => load_line line;; load_lines rest
  end.

Definition load_program (text : string) : M unit :=
  load_lines (program_lines text).

(** A line feed, to write program texts. *)
Definition LF : string := String (ascii_of_nat 10) EmptyString.

(** [load_program] then [run] on a fresh interpreter, as the test
    harness does. *)
Definition load_and_run (fuel : nat) (text : string)
  : option (outcome unit * ILInterpreter) :=
  match load_program text init with
  | (Returned _, s) => run fuel s
  | (Raised e, s) => Some (Raised e, s)
  end.

Definition final_registers (r : option (outcome unit * ILInterpreter))
  : option (gmap string value) :=
  match r with
  | Some (Returned _, s) => Some (registers s)
  | _ => None
  end.

(** * The earlier variant of the interpreter (classes.py)

    The same loader and run loop, twelve instructions, no masking: the
    register table starts empty, [evaluate_expression] lets its
    [ValueError] out, NOT is Python's [not], and [debug_registers] only
    prints.  Values are kept as Python has them, an [int] or a [bool]. *)

Module Classes.

Inductive Command : Type :=
  | LoadCommand (expression : string)
  | StoreCommand (variable : string)
  | AndCommand (expression : string)
  | OrCommand (expression : string)
  | AddCommand (expression : string)
  | SubCommand (expression : string)
  | NotCommand
  | SCommand (variable : string)
  | RCommand (variable : string)
  | JmpCommand (label : string)
  | JmpcCommand (label : string)
  | JmpncCommand (label : string).

Record ILInterpreter : Type := mkIL {
  registers : gmap string value;
  program : list Command;
  program_counter : Z;
  labels : gmap string Z
}.

(** [ILInterpreter.__init__]: the register table is empty. *)
Definition init : ILInterpreter :=
  {| registers := ∅; program := []; program_counter := 0; labels := ∅ |}.

Definition set_registers (r : gmap string value) (s : ILInterpreter) :=
  {| registers := r; program := program s;
     program_counter := program_counter s; labels := labels s |}.

Definition set_program_counter (pc : Z) (s : ILInterpreter) :=
  {| registers := registers s; program := program s;
     program_counter := pc; labels := labels s |}.

Definition set_labels (l : gmap string Z) (s : ILInterpreter) :=
  {| registers := registers s; program := program s;
     program_counter := program_counter s; labels := l |}.

Definition set_program (p : list Command) (s : ILInterpreter) :=
  {| registers := registers s; program := p;
     program_counter := program_counter s; labels := labels s |}.

(** A method call on this interpreter. *)
Definition M (A : Type) : Type := ILInterpreter -> outcome A * ILInterpreter.

(** [a & b] and [a | b]: a bool when both are bools, an int otherwise. *)
Definition py_and (a b : value) : value :=
  match a, b with
  | VBool x, VBool y => VBool (x && y)
  | _, _ => VInt (Z.land (to_int a) (to_int b))
  end.

Definition py_or (a b : value) : value :=
  match a, b with
  | VBool x, VBool y => VBool (x || y)
  | _, _ => VInt (Z.lor (to_int a) (to_int b))
  end.

(** [a + b] and [a - b]: always an int. *)
Definition py_add (a b : value) : value := VInt (to_int a + to_int b).
Definition py_sub (a b : value) : value := VInt (to_int a - to_int b).

(** [evaluate_expression]: no [try], no mask; a register is returned as
    it is stored. *)
Definition evaluate_expression (regs : gmap string value)
    (expression : string) : outcome value :=
  if PyStr.isdigit expression then
    match PyStr.int_decimal expression with
    | Some n => Returned (VInt n)
    | None => Raised (ValueError (invalid_literal "10" expression))
    end
  else if PyStr.startswith "16#" expression then
    match PyStr.int_hex (PyStr.drop 3 expression) with
    | Some n => Returned (VInt n)
    | None =>
        Raised (ValueError (invalid_literal "16" (PyStr.drop 3 expression)))
    end
  else
    match regs !! expression with
    | Some v => Returned v
    | None => Raised (ValueError ("Unknown expression: " +:+ expression))
    end.

(** [interpreter.registers['ACC'] op= interpreter.evaluate_expression(e)]:
    the subscription is read first, then the operand is evaluated, then
    the result is stored. *)
Definition augmented (op : value -> value -> value) (expression : string)
  : M unit :=
  fun s =>
    match registers s !! "ACC" with
    | None => (Raised (KeyError "ACC"), s)
    | Some acc =>
        match evaluate_expression (registers s) expression with
        | Raised e => (Raised e, s)
        | Returned v =>
            (Returned tt,
             set_registers (<["ACC" := op acc v]> (registers s)) s)
        end
    end.

(** Run [body] when the register ACC is truthy ([negate = false]) or
    falsy ([negate = true]); reading ACC may raise. *)
Definition when_acc (negate : bool) (body : M unit) : M unit :=
  fun s =>
    match registers s !! "ACC" with
    | None => (Raised (KeyError "ACC"), s)
    | Some acc =>
        if xorb negate (truthy acc) then body s else (Returned tt, s)
    end.

Definition jump (label : string) : M unit :=
  fun s =>
    match labels s !! label with
    | None => (Raised (KeyError label), s)
    | Some target => (Returned tt, set_program_counter (target - 1) s)
    end.

Definition execute (c : Command) : M unit :=
  match c with
  | LoadCommand expression =>
      fun s =>
        match evaluate_expression (registers s) expression with
        | Raised e => (Raised e, s)
        | Returned v =>
            (Returned tt, set_registers (<["ACC" := v]> (registers s)) s)
        end
  | StoreCommand variable =>
      fun s =>
        match registers s !! "ACC" with
        | None => (Raised (KeyError "ACC"), s)
        | Some acc =>
            (Returned tt, set_registers (<[variable := acc]> (registers s)) s)
        end
  | AndCommand expression => augmented py_and expression
  | OrCommand expression => augmented py_or expression
  | AddCommand expression => augmented py_add expression
  | SubCommand expression => augmented py_sub expression
  | NotCommand =>
      fun s =>
        match registers s !! "ACC" with
        | None => (Raised (KeyError "ACC"), s)
        | Some acc =>
            (Returned tt,
             set_registers (<["ACC" := VBool (negb (truthy acc))]>
                              (registers s)) s)
        end
  | SCommand variable =>
      when_acc false (fun s =>
        (Returned tt,
         set_registers (<[variable := VBool true]> (registers s)) s))
  | RCommand variable =>
      when_acc false (fun s =>
        (Returned tt,
         set_registers (<[variable := VBool false]> (registers s)) s))
  | JmpCommand label => jump label
  | JmpcCommand label => when_acc false (jump label)
  | JmpncCommand label => when_acc true (jump label)
  end.

(** [ILParser.parse]: a chain of comparisons; the classes with an operand
    are given [args[0]], whatever follows it is ignored. *)
Definition unary (f : string -> Command) (args : list string)
  : outcome Command :=
  match args with
  | a :: _ => Returned (f a)
  | [] => Raised IndexError
  end.

Definition parse (line : string) : outcome Command :=
  match PyStr.split line with
  | [] => Raised IndexError
  | command :: args =>
      if String.eqb command "LD" then unary LoadCommand args
      else if String.eqb command "ST" then unary StoreCommand args
      else if String.eqb command "AND" then unary AndCommand args
      else if String.eqb command "OR" then unary OrCommand args
      else if String.eqb command "ADD" then unary AddCommand args
      else if String.eqb command "SUB" then unary SubCommand args
      else if String.eqb command "NOT" then Returned NotCommand
      else if String.eqb command "S" then unary SCommand args
      else if String.eqb command "R" then unary RCommand args
      else if String.eqb command "JMP" then unary JmpCommand args
      else if String.eqb command "JMPC" then unary JmpcCommand args
      else if String.eqb command "JMPNC" then unary JmpncCommand args
      else Raised (ValueError ("Unknown instruction " +:+ command))
  end.

(** [ILInterpreter.load_program], as in il_interpreter.py. *)
Definition load_line (line : string) : M unit :=
  fun s =>
    let '(line, s) :=
      match PyStr.split_colon line with
      | Some (label, rest) =>
          (PyStr.strip rest,
           set_labels (<[PyStr.strip label := Z.of_nat (length (program s))]>
                         (labels s)) s)
      | None => (line, s)
      end in
    if PyStr.is_empty line then (Returned tt, s)
    else
      match parse line with
      | Returned c => (Returned tt, set_program (program s ++ [c]) s)
      | Raised e => (Raised e, s)
      end.

Fixpoint load_lines (lines : list string) : M unit :=
  match lines with
  | [] => fun s => (Returned tt, s)
  | line :: rest =>
      fun s =>
        match load_line line s with
        | (Returned _, s') => load_lines rest s'
        | (Raised e, s') => (Raised e, s')
        end
  end.

Definition load_program (text : string) : M unit :=
  load_lines (program_lines text).

(** [ILInterpreter.run], as in il_interpreter.py. *)
Definition getitem (l : list Command) (i : Z) : option Command :=
  let n := Z.of_nat (length l) in
  if 0 <=? i then l !! Z.to_nat i
  else if - n <=? i then l !! Z.to_nat (n + i)
  else None.

Definition loop_body : M unit :=
  fun s =>
    match getitem (program s) (program_counter s) with
    | None => (Raised IndexError, s)
    | Some command =>
        match execute command s with
        | (Returned _, s') =>
            (Returned tt, set_program_counter (program_counter s' + 1) s')
        | (Raised e, s') => (Raised e, s')
        end
    end.

Definition running (s : ILInterpreter) : bool :=
  program_counter s <? Z.of_nat (length (program s)).

Fixpoint run (fuel : nat) (s : ILInterpreter)
  : option (outcome unit * ILInterpreter) :=
  if running s then
    match fuel with
    | O => None
    | S fuel' =>
        match loop_body s with
        | (Returned _, s') => run fuel' s'
        | (Raised e, s') => Some (Raised e, s')
        end
    end
  else Some (Returned tt, s).

Definition load_and_run (fuel : nat) (text : string)
  : option (outcome unit * ILInterpreter) :=
  match load_program text init with
  | (Returned _, s) => run fuel s
  | (Raised e, s) => Some (Raised e, s)
  end.

(** The instructions whose [execute] reads the register ACC. *)
Definition reads_acc (c : Command) : bool :=
  match c with
  | LoadCommand _ | JmpCommand _ => false
  | _ => true
  end.

End Classes.

(** * Vocabulary of the properties *)

(** ** Machine words in the register table *)

(** A masked integer: an [int] between 0 and 2^32 - 1. *)
Definition word (v : value) : Prop :=
  exists z, v = VInt z /\ 0 <= z < 2 ^ 32.

(** A register table all of whose values are masked integers. *)
Definition masked (regs : gmap string value) : Prop :=
  forall name v, regs !! name = Some v -> word v.

(** The table [debug_registers] builds. *)
Definition normalize (regs : gmap string value) : gmap string value :=
  (fun v => VInt (mask32 (to_int v))) <$> regs.

Definition acc_is_word (s : ILInterpreter) : Prop :=
  exists z, registers s !! "ACC" = Some (VInt z) /\ 0 <= z < 2 ^ 32.

(** ** States of a run *)

(** The interpreter as [run] finds it after [__init__] and a load that
    left the program [p] and the label table [l]. *)
Definition start (p : list Command) (l : gmap string Z) : ILInterpreter :=
  {| registers := {[ "ACC" := VInt 0 ]}; program := p;
     program_counter := 0; labels := l |}.

(** [n] turns of the loop, all of which return. *)
Fixpoint turns (n : nat) (s : ILInterpreter) : option ILInterpreter :=
  match n with
  | O => Some s
  | S n' =>
      if running s then
        match loop_body s with
        | (Returned _, s') => turns n' s'
        | (Raised _, _) => None
        end
      else None
  end.

(** The interpreter after [n] turns, or where it was if they do not all
    return. *)
Definition after_turns (n : nat) (s : ILInterpreter) : ILInterpreter :=
  match turns n s with Some s' => s' | None => s end.

(** States a run passes through: a fresh register table with any program
    and label table, and then turn after turn of the loop. *)
Inductive reachable : ILInterpreter -> Prop :=
  | reachable_start p l : reachable (start p l)
  | reachable_turn s s' :
      reachable s -> running s = true ->
      loop_body s = (Returned tt, s') -> reachable s'.

(** ** Jumps *)

(** The interpreter after a jump that is taken, and after one that is
    not: [debug_registers] has run in both. *)
Definition jumped (target : Z) (s : ILInterpreter) : ILInterpreter :=
  set_registers (normalize (registers s)) (set_program_counter (target - 1) s).

Definition not_jumped (s : ILInterpreter) : ILInterpreter :=
  set_registers (normalize (registers s)) s.

(** The command [c] is a jump to [name] that is taken when ACC is [acc]. *)
Definition jumps_to (name : string) (c : Command) (acc : value) : Prop :=
  c = JmpCommand name
  \/ (c = JmpcCommand name /\ truthy acc = true)
  \/ (c = JmpncCommand name /\ truthy acc = false).

(** ** Lines of a program text *)

(** What [load_line] passes to the parser: the text after the colon when
    there is one, the line otherwise. *)
Definition instruction_text (line : string) : string :=
  match PyStr.split_colon line with
  | Some (_, rest) => PyStr.strip rest
  | None => line
  end.

(** The mnemonic of a line, [parts[0]] in [parse]. *)
Definition mnemonic (line : string) : option string :=
  match PyStr.split (instruction_text line) with
  | command :: _ => Some command
  | [] => None
  end.

(** The interpreter once [load_line] has dealt with the label of [line]. *)
Definition label_recorded (line : string) (s : ILInterpreter)
  : ILInterpreter :=
  match PyStr.split_colon line with
  | Some (label, _) =>
      set_labels (<[PyStr.strip label := Z.of_nat (length (program s))]>
                    (labels s)) s
  | None => s
  end.

(** ** Operands *)

(** The operand denotes nothing: the body of [evaluate_expression]
    raises on it. *)
Definition unresolvable (e : string) (s : ILInterpreter) : Prop :=
  exists x, evaluate_expression_try (registers s) e = Raised x.

(** A plain token: not empty, no white space and no colon in it; what an
    operand on a line without a label is. *)
Definition plain_char (c : ascii) : bool :=
  negb (PyStr.isspace c) && negb (PyStr.code c =? 58).

Definition plain (e : string) : bool :=
  negb (PyStr.is_empty e) && PyStr.forallb plain_char e.

(** [numeral n] is the decimal literal of [n], as one writes the operand
    of LD; ten digits cover every 32-bit value. *)
Definition digit_char (d : Z) : ascii := ascii_of_N (Z.to_N (48 + d)).

Fixpoint numeral_digits (fuel : nat) (n : Z) (tail : string) : string :=
  match fuel with
  | O => tail
  | S fuel' =>
      let tail' := String (digit_char (n mod 10)) tail in
      if n <? 10 then tail' else numeral_digits fuel' (n / 10) tail'
  end.

Definition numeral (n : Z) : string := numeral_digits 10 n "".

(** ** Programs and texts the properties are tried on *)

(** Instructions that write ACC without masking it themselves, and one
    that masks on its own. *)
Definition wrap_program : list Command :=
  [ LoadCommand "16#FFFFFFFF"; BinaryCommand MulCommand "16#FFFFFFFF";
    BinaryCommand SubCommand "16#FFFFFFFF"; BinaryCommand XorCommand "7";
    AndnCommand "3" ].

Definition div_zero_text : string :=
  "LD 20" +:+ LF +:+ "DIV 0" +:+ LF +:+ "ST A".

Definition ld0_s_x : string := "LD 0" +:+ LF +:+ "S X".

Definition control_flow_text : string :=
  "LD 1" +:+ LF +:+ "JMP Skip" +:+ LF +:+ "LD 0" +:+ LF +:+ "ST A" +:+ LF
  +:+ "Skip: LD 1" +:+ LF +:+ "ST B".

Definition exit_text : string :=
  "LD 1" +:+ LF +:+ "JMPC End" +:+ LF +:+ "LD 7" +:+ LF +:+ "End:".

Definition bad_text : string :=
  "LD 5" +:+ LF +:+ "L: FOO 1" +:+ LF +:+ "ST A".

Definition add_text : string :=
  "LD 16#FFFFFFFF" +:+ LF +:+ "ADD 1" +:+ LF +:+ "ST A".

(** The programs of test_il_interpreter.py, written as there: one
    instruction per line, indented, between two line feeds. *)
Definition test_text (lines : list string) : string :=
  LF +:+ List.fold_right (fun line rest => "    " +:+ line +:+ LF +:+ rest)
           "    " lines.

Definition test_set_reset_text : string :=
  test_text ["LD 1"; "S X"; "R Y"].

Definition test_logical_operations_text : string :=
  test_text
    [ "LD 16#F0"; "AND 16#0F"; "ST A"; "LD 16#F0"; "ANDN 16#0F"; "ST B";
      "LD 16#F0"; "OR 16#0F"; "ST C"; "LD 16#F0"; "ORN 16#0F"; "ST D";
      "LD 16#F0"; "XOR 16#FF"; "ST E"; "LD 16#F0"; "XORN 16#FF"; "ST F";
      "LD 1"; "NOT"; "ST G" ].

Definition test_arithmetic_operations_text : string :=
  test_text
    [ "LD 10"; "ADD 5"; "ST A"; "LD 10"; "SUB 3"; "ST B"; "LD 2"; "MUL 4";
      "ST C"; "LD 20"; "DIV 4"; "ST D"; "LD 20"; "MOD 3"; "ST E" ].

Definition test_control_flow_text : string :=
  test_text
    [ "LD 1"; "JMP Skip"; "LD 0"; "ST A"; "Skip: LD 1"; "ST B"; "LD 1";
      "JMPC Done"; "LD 0"; "ST C"; "Done: LD 1"; "ST D"; "LD 0";
      "JMPNC End"; "LD 0"; "ST E"; "End: LD 1"; "ST F" ].

(** [interpreter.registers.get(name)] for each name, after load and run. *)
Definition registers_after (fuel : nat) (text : string)
    (names : list string) : option (list (option value)) :=
  match final_registers (load_and_run fuel text) with
  | Some regs => Some (List.map (fun name => regs !! name) names)
  | None => None
  end.

(** The commands LD e, NOT, NOT, ST A and the text that loads as them. *)
Definition not_not_program (e : string) : list Command :=
  [ LoadCommand e; NotCommand; NotCommand; StoreCommand "A" ].

Definition not_not_source (e : string) : string :=
  "LD " +:+ e +:+ LF +:+ "NOT" +:+ LF +:+ "NOT" +:+ LF +:+ "ST A".

(** ** Vocabulary of the further properties *)

(** [c] returns, having assigned the 32-bit value [z] to ACC and changed
    nothing else. *)
Definition assigns_acc (c : Command) (s : ILInterpreter) (z : Z) : Prop :=
  execute c s
  = (Returned tt, set_registers (<["ACC" := VInt z]> (registers s)) s)
  /\ 0 <= z < 2 ^ 32.

(** A state to try the instructions on: ACC = 12 after LD 12. *)
Definition acc12 : ILInterpreter :=
  after_turns 1 (start [LoadCommand "12"] ∅).

(** Every label's index is an index of the program or its length. *)
Definition labels_in_range (s : ILInterpreter) : Prop :=
  forall l i, labels s !! l = Some i ->
              0 <= i <= Z.of_nat (length (program s)).

(** What holds in the states of a run of a loaded program. *)
Definition well_formed (s : ILInterpreter) : Prop :=
  masked (registers s) /\ is_Some (registers s !! "ACC")
  /\ labels_in_range s
  /\ 0 <= program_counter s <= Z.of_nat (length (program s)).

(** The three jump instructions. *)
Definition is_jump (c : Command) : bool :=
  match c with
  | JmpCommand _ | JmpcCommand _ | JmpncCommand _ => true
  | _ => false
  end.

(** A jump to its own label. *)
Definition spin_text : string := "LD 1" +:+ LF +:+ "Spin: JMP Spin".

(** The key of [command_map] for each subclass of [BinaryCommand]. *)
Definition mnemonic_of_binary (k : BinaryKind) : string :=
  match k with
  | AndCommand => "AND" | OrCommand => "OR" | AddCommand => "ADD"
  | SubCommand => "SUB" | OrnCommand => "ORN" | XorCommand => "XOR"
  | XornCommand => "XORN" | MulCommand => "MUL" | DivCommand => "DIV"
  | ModCommand => "MOD"
  end.

(** The mnemonic under which [command_map] holds the class of [c]. *)
Definition mnemonic_of (c : Command) : string :=
  match c with
  | LoadCommand _ => "LD"
  | StoreCommand _ => "ST"
  | BinaryCommand k _ => mnemonic_of_binary k
  | AndnCommand _ => "ANDN"
  | NotCommand => "NOT"
  | ConditionalCommand SCommand _ => "S"
  | ConditionalCommand RCommand _ => "R"
  | JmpCommand _ => "JMP"
  | JmpcCommand _ => "JMPC"
  | JmpncCommand _ => "JMPNC"
  end.

(** The operand the command was constructed with, if it has one. *)
Definition operand_of (c : Command) : option string :=
  match c with
  | LoadCommand e | BinaryCommand _ e | AndnCommand e => Some e
  | StoreCommand v | ConditionalCommand _ v => Some v
  | JmpCommand l | JmpcCommand l | JmpncCommand l => Some l
  | NotCommand => None
  end.

(** The line that stands for [c]: mnemonic, a blank, operand. *)
Definition text_of (c : Command) : string :=
  match operand_of c with
  | Some a => mnemonic_of c +:+ " " +:+ a
  | None => mnemonic_of c
  end.

(** The operand, if any, is a plain token. *)
Definition plain_operand (c : Command) : bool :=
  match operand_of c with
  | Some a => plain a
  | None => true
  end.

(** The text of a program: one line per command. *)
Fixpoint program_text (cs : list Command) : string :=
  match cs with
  | [] => ""
  | c :: cs' => text_of c +:+ LF +:+ program_text cs'
  end.

(** The names [evaluate_expression] takes for literals before it looks
    at the registers. *)
Definition literal_like (name : string) : bool :=
  PyStr.isdigit name || PyStr.startswith "16#" name.

(** The upper case hexadecimal digit of [d]. *)
Definition hex_char (d : Z) : ascii :=
  ascii_of_N (Z.to_N (if d <? 10 then 48 + d else 55 + d)).

Fixpoint hex_digits (fuel : nat) (n : Z) (tail : string) : string :=
  match fuel with
  | O => tail
  | S fuel' =>
      let tail' := String (hex_char (n mod 16)) tail in
      if n <? 16 then tail' else hex_digits fuel' (n / 16) tail'
  end.

(** The literal 16#... of [n] with upper case digits; eight digits cover
    every 32-bit value. *)
Definition hex_literal (n : Z) : string := "16#" +:+ hex_digits 8 n "".

(** The characters 0..9 and A..F. *)
Definition is_hex_upper (c : ascii) : bool :=
  let n := PyStr.code c in
  ((48 <=? n) && (n <=? 57)) || ((65 <=? n) && (n <=? 70)).

(** The interpreter of classes.py with ACC = 5. *)
Definition classes_acc5 : Classes.ILInterpreter :=
  Classes.set_registers {[ "ACC" := VInt 5 ]} Classes.init.

(** The commands LD n, ADD m, SUB k, ST A for decimal literals. *)
Definition classes_sum_program (n m k : Z) : list Classes.Command :=
  [ Classes.LoadCommand (numeral n); Classes.AddCommand (numeral m);
    Classes.SubCommand (numeral k); Classes.StoreCommand "A" ].

(** * Properties *)

(** ** The embedding run on the literals and programs of the tests *)

Example int_hex_FFFFFFFF : PyStr.int_hex "FFFFFFFF" = Some 4294967295.
Proof. vm_compute. reflexivity. Qed.

Example int_hex_GZ : PyStr.int_hex "GZ" = None.
Proof. vm_compute. reflexivity. Qed.

Example int_hex_prefix : PyStr.int_hex "0x1_f" = Some 31.
Proof. vm_compute. reflexivity. Qed.

Example split_words : PyStr.split "  LD   16#F0 " = ["LD"; "16#F0"].
Proof. vm_compute. reflexivity. Qed.

Example test_load_store :
  registers_after 2 (test_text ["LD 5"; "ST A"]) ["A"; "ACC"]
  = Some [Some (VInt 5); Some (VInt 5)].
Proof. vm_compute. reflexivity. Qed.

(** [True] and [False] are stored by S and R and become 1 and 0 in
    [debug_registers]; the test compares them with [==]. *)
Example test_set_reset :
  registers_after 3 test_set_reset_text ["X"; "Y"]
  = Some [Some (VInt 1); Some (VInt 0)].
Proof. vm_compute. reflexivity. Qed.

Example test_logical_operations :
  registers_after 21 test_logical_operations_text
    ["A"; "B"; "C"; "D"; "E"; "F"; "G"]
  = Some [Some (VInt 0); Some (VInt 240); Some (VInt 255);
          Some (VInt 4294967280); Some (VInt 15); Some (VInt 4294967280);
          Some (VInt 4294967294)].
Proof. vm_compute. reflexivity. Qed.

Example test_arithmetic_operations :
  registers_after 15 test_arithmetic_operations_text
    ["A"; "B"; "C"; "D"; "E"]
  = Some [Some (VInt 15); Some (VInt 7); Some (VInt 8); Some (VInt 5);
          Some (VInt 2)].
Proof. vm_compute. reflexivity. Qed.

Example test_control_flow :
  registers_after 18 test_control_flow_text ["A"; "B"; "C"; "D"; "E"; "F"]
  = Some [None; Some (VInt 1); None; Some (VInt 1); None; Some (VInt 1)].
Proof. vm_compute. reflexivity. Qed.

(** ** The 32-bit mask *)

Lemma mask32_mod z : mask32 z = z mod 2 ^ 32.
Proof.
  unfold mask32. change MASK with (Z.ones 32).
  apply Z.land_ones. lia.
Qed.

Lemma mask32_range z : 0 <= mask32 z < 2 ^ 32.
Proof. rewrite mask32_mod. apply Z.mod_pos_bound. lia. Qed.

Lemma mask32_small z : 0 <= z < 2 ^ 32 -> mask32 z = z.
Proof. intros H. rewrite mask32_mod. apply Z.mod_small. exact H. Qed.

Lemma mask32_idem z : mask32 (mask32 z) = mask32 z.
Proof. apply mask32_small, mask32_range. Qed.

(** Complementing twice under the mask gives the masked value back. *)
Lemma mask32_lnot_lnot z : mask32 (Z.lnot (mask32 (Z.lnot z))) = mask32 z.
Proof.
  rewrite !mask32_mod. unfold Z.lnot.
  replace (Z.pred (- (Z.pred (- z) mod 2 ^ 32)))
    with (- (Z.pred (- z) mod 2 ^ 32) - 1) by lia.
  replace (Z.pred (- z)) with (- z - 1) by lia.
  assert (Hm : (- z - 1) mod 2 ^ 32 = 2 ^ 32 - 1 - z mod 2 ^ 32).
  { pose proof (Z.mod_pos_bound z (2 ^ 32) ltac:(lia)) as Hb.
    symmetry. apply (Z.mod_unique _ _ (- (z / 2 ^ 32) - 1)); [lia|].
    pose proof (Z.div_mod z (2 ^ 32) ltac:(lia)). lia. }
  rewrite Hm.
  pose proof (Z.mod_pos_bound z (2 ^ 32) ltac:(lia)) as Hb.
  symmetry. apply (Z.mod_unique _ _ (-1)); lia.
Qed.

(** ** Registers whose values are all masked integers *)

Lemma normalize_masked regs : masked (normalize regs).
Proof.
  intros name v. unfold normalize. rewrite lookup_fmap.
  destruct (regs !! name) as [w|]; simpl; [|discriminate].
  intros [= <-]. eexists. split; [reflexivity|]. apply mask32_range.
Qed.

Lemma normalize_id regs : masked regs -> normalize regs = regs.
Proof.
  intros Hm. apply map_eq. intros name. unfold normalize.
  rewrite lookup_fmap.
  destruct (regs !! name) as [w|] eqn:E; simpl; [|reflexivity].
  destruct (Hm _ _ E) as (z & -> & Hz). simpl.
  rewrite mask32_small by exact Hz. reflexivity.
Qed.

Lemma normalize_lookup regs name :
  normalize regs !! name = (fun v => VInt (mask32 (to_int v))) <$> regs !! name.
Proof. unfold normalize. apply lookup_fmap. Qed.

Lemma set_registers_id s : set_registers (registers s) s = s.
Proof. destruct s. reflexivity. Qed.

Lemma debug_registers_masked s :
  masked (registers s) -> debug_registers s = (Returned tt, s).
Proof.
  intros Hm. unfold debug_registers.
  change ((fun v => VInt (mask32 (to_int v))) <$> registers s)
    with (normalize (registers s)).
  rewrite normalize_id by exact Hm. rewrite set_registers_id. reflexivity.
Qed.

(** ** evaluate_expression never raises and leaves the interpreter alone *)

Lemma evaluate_expression_try_range regs e v :
  evaluate_expression_try regs e = Returned v -> 0 <= v < 2 ^ 32.
Proof.
  unfold evaluate_expression_try.
  destruct (PyStr.isdigit e).
  { destruct (PyStr.int_decimal e); intros [= <-]. apply mask32_range. }
  destruct (PyStr.startswith "16#" e).
  { destruct (PyStr.int_hex _); intros [= <-]. apply mask32_range. }
  destruct (regs !! e); intros [= <-]. apply mask32_range.
Qed.

Lemma evaluate_expression_try_raises regs e x :
  evaluate_expression_try regs e = Raised x -> exists msg, x = ValueError msg.
Proof.
  unfold evaluate_expression_try.
  destruct (PyStr.isdigit e).
  { destruct (PyStr.int_decimal e); intros [= <-]. eauto. }
  destruct (PyStr.startswith "16#" e).
  { destruct (PyStr.int_hex _); intros [= <-]. eauto. }
  destruct (regs !! e); intros [= <-]. eauto.
Qed.

Lemma evaluate_expression_total e s :
  exists v, evaluate_expression e s = (Returned v, s) /\ 0 <= v < 2 ^ 32.
Proof.
  unfold evaluate_expression.
  destruct (evaluate_expression_try (registers s) e) as [v|x] eqn:E.
  - exists v. split; [reflexivity|]. eapply evaluate_expression_try_range, E.
  - destruct (evaluate_expression_try_raises _ _ _ E) as [msg ->].
    exists 0. split; [reflexivity|lia].
Qed.

(** ** What one [execute] does to the interpreter *)

Ltac unfold_calls :=
  unfold debug_decorator, AndnCommand_apply_operation,
    Conditional_apply_operation in *;
  unfold bind, ret, raise, read_register, write_register,
    read_label, write_program_counter, debug_registers in *.

Ltac eval_operand e s :=
  let v := fresh "v" in
  let Hv := fresh "Hv" in
  let Hr := fresh "Hr" in
  destruct (evaluate_expression_total e s) as (v & Hv & Hr);
  rewrite Hv in *.

(** The body of [BinaryCommand.execute] between the operand's evaluation
    and [debug_registers]. *)
Lemma apply_operation_cases k value s :
  (exists acc z,
      registers s !! "ACC" = Some acc
      /\ apply_operation k value s
         = (Returned tt, set_registers (<["ACC" := VInt z]> (registers s)) s))
  \/ (exists x, apply_operation k value s = (Raised x, s)).
Proof.
  destruct (registers s !! "ACC") as [acc|] eqn:E.
  - destruct k; unfold apply_operation; unfold_calls; rewrite E;
      try (left; eexists _, _; split; reflexivity).
    + destruct (value =? 0); [right; eauto|left; eexists _, _; split; reflexivity].
    + destruct (value =? 0); [right; eauto|left; eexists _, _; split; reflexivity].
  - right. destruct k; unfold apply_operation; unfold_calls; rewrite E; eauto.
Qed.

(** An [execute] that raises has changed nothing. *)
Lemma execute_raises_unchanged c s x s' :
  execute c s = (Raised x, s') -> s' = s.
Proof.
  destruct c as [e|var|k e|e| |k var|l|l|l]; unfold execute.
  - unfold_calls. eval_operand e s. intros [=].
  - unfold_calls. destruct (registers s !! "ACC"); intros [=]; congruence.
  - unfold debug_decorator at 1. unfold bind at 1. unfold bind at 1.
    eval_operand e s.
    unfold bind at 1.
    destruct (apply_operation_cases k (mask32 v) s)
      as [(acc & z & Hacc & ->)|(y & ->)].
    + unfold_calls. simpl. rewrite lookup_insert_eq. intros [=].
    + intros [=]. congruence.
  - unfold_calls. eval_operand e s.
    destruct (registers s !! "ACC"); intros [=]; congruence.
  - unfold_calls. destruct (registers s !! "ACC"); intros [=]; congruence.
  - unfold_calls. destruct (registers s !! "ACC") as [acc|]; [|intros [=]; congruence].
    destruct (truthy acc); [destruct k|]; intros [=].
  - unfold_calls. destruct (labels s !! l); intros [=]; congruence.
  - unfold_calls. destruct (registers s !! "ACC") as [acc|]; [|intros [=]; congruence].
    destruct (truthy acc); [|intros [=]].
    destruct (labels s !! l); intros [=]; congruence.
  - unfold_calls. destruct (registers s !! "ACC") as [acc|]; [|intros [=]; congruence].
    destruct (truthy acc); simpl; [intros [=]|].
    destruct (labels s !! l); intros [=]; congruence.
Qed.

(** An [execute] that returns ends in [debug_registers]: all values are
    masked integers; no register disappears; program and labels stay. *)
Lemma execute_returns c s s' :
  execute c s = (Returned tt, s') ->
  masked (registers s')
  /\ (forall name, is_Some (registers s !! name) ->
                   is_Some (registers s' !! name))
  /\ program s' = program s /\ labels s' = labels s.
Proof.
  assert (Hkeep : forall (r : gmap string value) k w name,
             is_Some (r !! name) -> is_Some (normalize (<[k := w]> r) !! name)).
  { intros r k w name [u Hu]. rewrite normalize_lookup.
    destruct (decide (k = name)) as [->|Hne].
    - rewrite lookup_insert_eq. simpl. eauto.
    - rewrite lookup_insert_ne by exact Hne. rewrite Hu. simpl. eauto. }
  assert (Hkeep0 : forall (r : gmap string value) name,
             is_Some (r !! name) -> is_Some (normalize r !! name)).
  { intros r name [u Hu]. rewrite normalize_lookup, Hu. simpl. eauto. }
  destruct c as [e|var|k e|e| |k var|l|l|l]; unfold execute.
  - unfold_calls. eval_operand e s. intros [= <-]. simpl.
    split; [apply normalize_masked|]. split; [apply Hkeep|]. split; reflexivity.
  - unfold_calls. destruct (registers s !! "ACC"); intros [= <-]. simpl.
    split; [apply normalize_masked|]. split; [apply Hkeep|]. split; reflexivity.
  - unfold debug_decorator at 1. unfold bind at 1. unfold bind at 1.
    eval_operand e s.
    unfold bind at 1.
    destruct (apply_operation_cases k (mask32 v) s)
      as [(acc & z & Hacc & ->)|(y & ->)]; [|intros [=]].
    unfold_calls. simpl. rewrite lookup_insert_eq. intros [= <-]. simpl.
    split; [apply normalize_masked|].
    split; [|split; reflexivity].
    intros name Hn. apply Hkeep.
    destruct Hn as [u Hu].
    destruct (decide ("ACC" = name)) as [<-|Hne].
    + rewrite lookup_insert_eq. eauto.
    + rewrite lookup_insert_ne by exact Hne. eauto.
  - unfold_calls. eval_operand e s.
    destruct (registers s !! "ACC"); intros [= <-]. simpl.
    split; [apply normalize_masked|]. split; [apply Hkeep|]. split; reflexivity.
  - unfold_calls. destruct (registers s !! "ACC"); intros [= <-]. simpl.
    split; [apply normalize_masked|]. split; [apply Hkeep|]. split; reflexivity.
  - unfold_calls. destruct (registers s !! "ACC") as [acc|]; [|intros [=]].
    destruct (truthy acc); [destruct k|]; intros [= <-]; simpl;
      (split; [apply normalize_masked|]);
      (split; [first [apply Hkeep|apply Hkeep0]|]); split; reflexivity.
  - unfold_calls. destruct (labels s !! l); intros [= <-]. simpl.
    split; [apply normalize_masked|]. split; [apply Hkeep0|]. split; reflexivity.
  - unfold_calls. destruct (registers s !! "ACC") as [acc|]; [|intros [=]].
    destruct (truthy acc).
    + destruct (labels s !! l); intros [= <-]. simpl.
      split; [apply normalize_masked|]. split; [apply Hkeep0|]. split; reflexivity.
    + intros [= <-]. simpl.
      split; [apply normalize_masked|]. split; [apply Hkeep0|]. split; reflexivity.
  - unfold_calls. destruct (registers s !! "ACC") as [acc|]; [|intros [=]].
    destruct (truthy acc); simpl.
    + intros [= <-]. simpl.
      split; [apply normalize_masked|]. split; [apply Hkeep0|]. split; reflexivity.
    + destruct (labels s !! l); intros [= <-]. simpl.
      split; [apply normalize_masked|]. split; [apply Hkeep0|]. split; reflexivity.
Qed.

(** ** The loader's frame *)

(** Loading never touches the registers or the program counter. *)
Lemma load_line_frame line s o s' :
  load_line line s = (o, s') ->
  registers s' = registers s /\ program_counter s' = program_counter s.
Proof.
  unfold load_line.
  destruct (PyStr.split_colon line) as [[label rest]|].
  - destruct (PyStr.is_empty (PyStr.strip rest)); [intros [= <- <-]; auto|].
    destruct (parse _); intros [= <- <-]; auto.
  - destruct (PyStr.is_empty line); [intros [= <- <-]; auto|].
    destruct (parse _); intros [= <- <-]; auto.
Qed.

Lemma load_lines_frame lines : forall s o s',
  load_lines lines s = (o, s') ->
  registers s' = registers s /\ program_counter s' = program_counter s.
Proof.
  induction lines as [|line lines IH]; intros s o s'; simpl.
  - intros [= <- <-]. auto.
  - unfold bind. destruct (load_line line s) as [[[]|x] s1] eqn:E.
    + intros H. apply IH in H as [-> ->]. eapply load_line_frame, E.
    + intros [= <- <-]. eapply load_line_frame, E.
Qed.

(** ** The run loop *)

Lemma loop_body_returns s s' :
  loop_body s = (Returned tt, s') ->
  exists c s1,
    getitem (program s) (program_counter s) = Some c
    /\ execute c s = (Returned tt, s1)
    /\ s' = set_program_counter (program_counter s1 + 1) s1.
Proof.
  unfold loop_body.
  destruct (getitem (program s) (program_counter s)) as [c|]; [|intros [=]].
  unfold bind. destruct (execute c s) as [[[]|x] s1] eqn:E; intros [= <-].
  exists c, s1. auto.
Qed.

Lemma loop_body_raises_unchanged s x s' :
  loop_body s = (Raised x, s') -> s' = s.
Proof.
  unfold loop_body.
  destruct (getitem (program s) (program_counter s)) as [c|];
    [|intros [=]; congruence].
  unfold bind. destruct (execute c s) as [[[]|y] s1] eqn:E; intros [=].
  subst. eapply execute_raises_unchanged, E.
Qed.

Lemma run_turns n : forall s0 s fuel,
  turns n s0 = Some s -> run (n + fuel) s0 = run fuel s.
Proof.
  induction n as [|n IH]; intros s0 s fuel; simpl.
  - intros [= ->]. reflexivity.
  - destruct (running s0); [|discriminate].
    destruct (loop_body s0) as [[[]|x] s1]; [|discriminate].
    apply IH.
Qed.

Lemma reachable_registers s :
  reachable s ->
  masked (registers s) /\ is_Some (registers s !! "ACC").
Proof.
  induction 1 as [p l|s s' Hr [IHm IHa] Hrun Hbody]; simpl.
  - split.
    + intros name v Hl. apply lookup_singleton_Some in Hl as [_ <-].
      exists 0. split; [reflexivity|lia].
    + rewrite lookup_singleton_eq. eauto.
  - destruct (loop_body_returns _ _ Hbody) as (c & s1 & _ & Hex & ->).
    destruct (execute_returns _ _ _ Hex) as (Hm & Hk & _).
    simpl. split; [exact Hm|apply Hk, IHa].
Qed.

Lemma masked_acc_is_word s :
  masked (registers s) -> is_Some (registers s !! "ACC") -> acc_is_word s.
Proof.
  intros Hm [v Hv]. destruct (Hm _ _ Hv) as (z & -> & Hz). exists z. auto.
Qed.

(** C4: in every state a run passes through, and after any instruction
    executed there (whether it returns or raises), the register table has
    the key ACC and its value is an integer between 0 and 2^32 - 1. *)
Theorem acc_always_32bit s :
  reachable s ->
  acc_is_word s
  /\ forall c o s', execute c s = (o, s') -> acc_is_word s'.
Proof.
  intros Hr. destruct (reachable_registers _ Hr) as [Hm Ha].
  split; [apply masked_acc_is_word; assumption|].
  intros c [[]|x] s' Hex.
  - destruct (execute_returns _ _ _ Hex) as (Hm' & Hk & _).
    apply masked_acc_is_word; [exact Hm'|apply Hk, Ha].
  - apply execute_raises_unchanged in Hex as ->.
    apply masked_acc_is_word; assumption.
Qed.

Lemma reachable_after_turns n : forall s,
  reachable s -> reachable (after_turns n s).
Proof.
  unfold after_turns. induction n as [|n IH]; intros s Hr; simpl; [exact Hr|].
  destruct (running s) eqn:Hrun; [|exact Hr].
  destruct (loop_body s) as [[[]|x] s1] eqn:Hb; [|exact Hr].
  specialize (IH s1 (reachable_turn _ _ Hr Hrun Hb)).
  destruct (turns n s1); [exact IH|exact Hr].
Qed.

(** What a load on a fresh interpreter returns is where a run starts. *)
Lemma loaded_reachable text s0 :
  load_program text init = (Returned tt, s0) -> reachable s0.
Proof.
  intros H. destruct (load_lines_frame _ _ _ _ H) as [Hr Hp].
  destruct s0 as [r p pc l]. simpl in Hr, Hp. subst r pc.
  apply (reachable_start p l).
Qed.

Lemma acc_always_32bit_witness :
  let s := after_turns 5 (start wrap_program ∅) in
  reachable s
  /\ (acc_is_word s
      /\ forall c o s', execute c s = (o, s') -> acc_is_word s').
Proof.
  intros s.
  assert (Hr : reachable s) by apply reachable_after_turns, reachable_start.
  split; [exact Hr|]. exact (acc_always_32bit s Hr).
Defined.

Example wrap_program_runs :
  registers (after_turns 5 (start wrap_program ∅)) !! "ACC"
  = Some (VInt 4).
Proof. vm_compute. reflexivity. Qed.

(** ** Division by zero *)

Lemma evaluate_expression_fst e s v :
  fst (evaluate_expression e s) = Returned v ->
  evaluate_expression e s = (Returned v, s).
Proof.
  destruct (evaluate_expression_total e s) as (w & Hw & _).
  rewrite Hw. simpl. congruence.
Qed.

(** C1: when the divisor of DIV or MOD evaluates to zero, the instruction
    raises ZeroDivisionError and the interpreter (register table, ACC and
    program counter included) is exactly as before the instruction; a run
    that arrives at that instruction ends with this error and that
    interpreter. *)
Theorem div_mod_by_zero_raises s k e :
  k = DivCommand \/ k = ModCommand ->
  is_Some (registers s !! "ACC") ->
  fst (evaluate_expression e s) = Returned 0 ->
  execute (BinaryCommand k e) s = (Raised ZeroDivisionError, s)
  /\ forall s0 n fuel,
       turns n s0 = Some s ->
       running s = true ->
       getitem (program s) (program_counter s) = Some (BinaryCommand k e) ->
       run (n + S fuel) s0 = Some (Raised ZeroDivisionError, s).
Proof.
  intros Hk [acc Hacc] He.
  apply evaluate_expression_fst in He.
  assert (Hex : execute (BinaryCommand k e) s = (Raised ZeroDivisionError, s)).
  { unfold execute, debug_decorator. unfold bind at 1. unfold bind at 1.
    rewrite He. unfold bind at 1.
    assert (Hap : apply_operation k (mask32 0) s = (Raised ZeroDivisionError, s)).
    { destruct Hk as [-> | ->]; unfold apply_operation; unfold_calls;
        rewrite Hacc; reflexivity. }
    rewrite Hap. reflexivity. }
  split; [exact Hex|].
  intros s0 n fuel Ht Hrun Hget.
  rewrite (run_turns n s0 s (S fuel) Ht).
  simpl. rewrite Hrun. unfold loop_body. rewrite Hget.
  unfold bind. rewrite Hex. reflexivity.
Qed.

Lemma div_mod_by_zero_raises_witness :
  let s0 := snd (load_program div_zero_text init) in
  let s := after_turns 1 s0 in
  execute (BinaryCommand DivCommand "0") s = (Raised ZeroDivisionError, s)
  /\ load_and_run 3 div_zero_text = Some (Raised ZeroDivisionError, s)
  /\ registers s !! "ACC" = Some (VInt 20)
  /\ registers s !! "A" = None.
Proof.
  intros s0 s.
  assert (Hacc : is_Some (registers s !! "ACC"))
    by (eexists; vm_compute; reflexivity).
  assert (He : fst (evaluate_expression "0" s) = Returned 0)
    by (vm_compute; reflexivity).
  destruct (div_mod_by_zero_raises s DivCommand "0" (or_introl eq_refl) Hacc He)
    as [Hex Hrun].
  split; [exact Hex|].
  split.
  - change (load_and_run 3 div_zero_text) with (run (1 + 2) s0).
    apply (Hrun s0 1%nat 1%nat); vm_compute; reflexivity.
  - split; vm_compute; reflexivity.
Defined.

(** ** Conditional set and reset *)

(** C8: in a state a run passes through, when ACC is falsy, executing S
    or R changes nothing: the interpreter after the instruction is the
    interpreter before it, so a variable absent before stays absent; and
    the program LD 0, S X ends with X absent. *)
Theorem set_reset_noop_when_acc_falsy s k variable acc :
  reachable s ->
  registers s !! "ACC" = Some acc ->
  truthy acc = false ->
  execute (ConditionalCommand k variable) s = (Returned tt, s)
  /\ (registers s !! variable = None ->
      registers (snd (execute (ConditionalCommand k variable) s))
        !! variable = None)
  /\ exists final,
       load_and_run 2 ld0_s_x = Some (Returned tt, final)
       /\ registers final !! "X" = None.
Proof.
  intros Hr Hacc Hf.
  destruct (reachable_registers _ Hr) as [Hm _].
  assert (Hex : execute (ConditionalCommand k variable) s = (Returned tt, s)).
  { unfold execute, debug_decorator. unfold bind at 1. unfold bind at 1.
    unfold read_register. rewrite Hacc, Hf. unfold ret, bind.
    rewrite debug_registers_masked by exact Hm. reflexivity. }
  split; [exact Hex|].
  split; [rewrite Hex; simpl; auto|].
  eexists. split; vm_compute; reflexivity.
Qed.

Lemma set_reset_noop_when_acc_falsy_witness :
  let s := after_turns 1 (start [LoadCommand "0"; ConditionalCommand SCommand "X"] ∅) in
  reachable s
  /\ registers s !! "ACC" = Some (VInt 0)
  /\ execute (ConditionalCommand SCommand "X") s = (Returned tt, s).
Proof.
  intros s.
  assert (Hr : reachable s) by apply reachable_after_turns, reachable_start.
  assert (Hacc : registers s !! "ACC" = Some (VInt 0))
    by (vm_compute; reflexivity).
  split; [exact Hr|]. split; [exact Hacc|].
  exact (proj1 (set_reset_noop_when_acc_falsy s SCommand "X" (VInt 0)
                  Hr Hacc eq_refl)).
Defined.

(** ** Jumps *)

Lemma execute_jmp s label target :
  labels s !! label = Some target ->
  execute (JmpCommand label) s = (Returned tt, jumped target s).
Proof. intros Hl. unfold execute. unfold_calls. rewrite Hl. reflexivity. Qed.

Lemma execute_jmpc s label target acc :
  labels s !! label = Some target ->
  registers s !! "ACC" = Some acc ->
  execute (JmpcCommand label) s
  = (Returned tt, if truthy acc then jumped target s else not_jumped s).
Proof.
  intros Hl Ha. unfold execute. unfold_calls. rewrite Ha.
  destruct (truthy acc); [rewrite Hl|]; reflexivity.
Qed.

Lemma execute_jmpnc s label target acc :
  labels s !! label = Some target ->
  registers s !! "ACC" = Some acc ->
  execute (JmpncCommand label) s
  = (Returned tt, if truthy acc then not_jumped s else jumped target s).
Proof.
  intros Hl Ha. unfold execute. unfold_calls. rewrite Ha.
  destruct (truthy acc); simpl; [|rewrite Hl]; reflexivity.
Qed.

Lemma loop_body_execute s c s1 :
  getitem (program s) (program_counter s) = Some c ->
  execute c s = (Returned tt, s1) ->
  loop_body s
  = (Returned tt, set_program_counter (program_counter s1 + 1) s1).
Proof.
  intros Hg He. unfold loop_body. rewrite Hg. unfold bind. rewrite He.
  reflexivity.
Qed.

(** C3: with [label] in the label table at index [target], executing
    JMP label sets the program counter to [target - 1], and the turn of
    the loop that executes it ends with the program counter at [target]:
    the next instruction fetched is the one at the label's index.  JMPC
    does so when ACC is truthy and otherwise just moves on to the next
    instruction; JMPNC does so when ACC is falsy and otherwise moves on. *)
Theorem jump_lands_on_label s label target acc :
  labels s !! label = Some target ->
  registers s !! "ACC" = Some acc ->
  (exists s1,
      execute (JmpCommand label) s = (Returned tt, s1)
      /\ program_counter s1 = target - 1
      /\ (getitem (program s) (program_counter s) = Some (JmpCommand label) ->
          exists s2,
            loop_body s = (Returned tt, s2)
            /\ program_counter s2 = target
            /\ getitem (program s2) (program_counter s2)
               = getitem (program s) target))
  /\ (exists s1,
        execute (JmpcCommand label) s = (Returned tt, s1)
        /\ program_counter s1
           = (if truthy acc then target - 1 else program_counter s)
        /\ (getitem (program s) (program_counter s) = Some (JmpcCommand label) ->
            exists s2,
              loop_body s = (Returned tt, s2)
              /\ program_counter s2
                 = (if truthy acc then target else program_counter s + 1)
              /\ program s2 = program s))
  /\ (exists s1,
        execute (JmpncCommand label) s = (Returned tt, s1)
        /\ program_counter s1
           = (if truthy acc then program_counter s else target - 1)
        /\ (getitem (program s) (program_counter s) = Some (JmpncCommand label) ->
            exists s2,
              loop_body s = (Returned tt, s2)
              /\ program_counter s2
                 = (if truthy acc then program_counter s + 1 else target)
              /\ program s2 = program s)).
Proof.
  intros Hl Ha.
  split; [|split].
  - eexists. split; [apply execute_jmp, Hl|]. split; [reflexivity|].
    intros Hg.
    pose proof (loop_body_execute s _ _ Hg (execute_jmp _ _ _ Hl)) as Hb.
    eexists. split; [exact Hb|].
    simpl. split; [lia|]. f_equal. lia.
  - eexists. split; [apply execute_jmpc; eassumption|].
    split; [destruct (truthy acc); reflexivity|].
    intros Hg.
    pose proof (loop_body_execute s _ _ Hg (execute_jmpc _ _ _ _ Hl Ha)) as Hb.
    eexists. split; [exact Hb|].
    destruct (truthy acc); simpl; split; (lia || reflexivity).
  - eexists. split; [apply execute_jmpnc; eassumption|].
    split; [destruct (truthy acc); reflexivity|].
    intros Hg.
    pose proof (loop_body_execute s _ _ Hg (execute_jmpnc _ _ _ _ Hl Ha)) as Hb.
    eexists. split; [exact Hb|].
    destruct (truthy acc); simpl; split; (lia || reflexivity).
Qed.

Lemma jump_lands_on_label_witness :
  let s := after_turns 1 (snd (load_program control_flow_text init)) in
  labels s !! "Skip" = Some 4
  /\ registers s !! "ACC" = Some (VInt 1)
  /\ exists s2,
       loop_body s = (Returned tt, s2)
       /\ program_counter s2 = 4
       /\ getitem (program s2) (program_counter s2) = Some (LoadCommand "1").
Proof.
  intros s.
  assert (Hl : labels s !! "Skip" = Some 4) by (vm_compute; reflexivity).
  assert (Ha : registers s !! "ACC" = Some (VInt 1)) by (vm_compute; reflexivity).
  split; [exact Hl|]. split; [exact Ha|].
  destruct (jump_lands_on_label s "Skip" 4 (VInt 1) Hl Ha)
    as [(s1 & _ & _ & Hturn) _].
  destruct Hturn as (s2 & Hb & Hpc & Hnext); [vm_compute; reflexivity|].
  exists s2. split; [exact Hb|]. split; [exact Hpc|].
  rewrite Hnext. vm_compute. reflexivity.
Defined.

(** ** The loader *)

Lemma load_lines_app a b s :
  load_lines (a ++ b) s = (load_lines a;; load_lines b) s.
Proof.
  revert s. induction a as [|line a IH]; intros s; simpl.
  - reflexivity.
  - unfold bind.
    destruct (load_line line s) as [[[]|x] s1]; [|reflexivity].
    rewrite IH. reflexivity.
Qed.

(** A line that is a label and nothing else only writes the label table. *)
Lemma load_line_label_only line label rest s :
  PyStr.split_colon line = Some (label, rest) ->
  PyStr.strip rest = "" ->
  load_line line s
  = (Returned tt,
     set_labels (<[PyStr.strip label := Z.of_nat (length (program s))]>
                   (labels s)) s).
Proof.
  intros Hc Hr. unfold load_line. rewrite Hc, Hr. reflexivity.
Qed.

Lemma run_finished fuel s :
  running s = false -> run fuel s = Some (Returned tt, s).
Proof. intros H. destruct fuel; simpl; rewrite H; reflexivity. Qed.

(** C10: when the last non-blank line of a program text is a label with
    nothing after the colon, loading records that label with the number
    of instructions of the whole program as its index; a JMP to it, or a
    JMPC or JMPNC to it that is taken, leaves the program counter at that
    number, the loop condition fails and the run returns normally. *)
Theorem end_label_is_exit text (pre : list string) last label rest s0 s1 :
  program_lines text = (pre ++ [last])%list ->
  PyStr.split_colon last = Some (label, rest) ->
  PyStr.strip rest = "" ->
  load_lines pre s0 = (Returned tt, s1) ->
  exists s2,
    load_program text s0 = (Returned tt, s2)
    /\ program s2 = program s1
    /\ labels s2 !! PyStr.strip label = Some (Z.of_nat (length (program s2)))
    /\ forall s c acc,
         program s = program s2 -> labels s = labels s2 ->
         running s = true ->
         getitem (program s) (program_counter s) = Some c ->
         registers s !! "ACC" = Some acc ->
         jumps_to (PyStr.strip label) c acc ->
         exists s',
           loop_body s = (Returned tt, s')
           /\ program_counter s' = Z.of_nat (length (program s'))
           /\ running s' = false
           /\ forall fuel, run (S fuel) s = Some (Returned tt, s').
Proof.
  intros Hlines Hc Hr Hpre.
  eexists. split.
  { unfold load_program. rewrite Hlines, load_lines_app.
    unfold bind. rewrite Hpre. simpl. unfold bind.
    rewrite (load_line_label_only _ _ _ _ Hc Hr). reflexivity. }
  simpl. split; [reflexivity|].
  split; [apply lookup_insert_eq|].
  intros s c acc Hp Hlab Hrun Hg Ha Hj.
  assert (Hl : labels s !! PyStr.strip label
               = Some (Z.of_nat (length (program s)))).
  { rewrite Hlab, Hp. simpl. apply lookup_insert_eq. }
  set (len := Z.of_nat (length (program s))) in *.
  assert (He : execute c s = (Returned tt, jumped len s)).
  { destruct Hj as [-> | [[-> Ht] | [-> Ht]]].
    - apply execute_jmp, Hl.
    - rewrite (execute_jmpc _ _ _ _ Hl Ha), Ht. reflexivity.
    - rewrite (execute_jmpnc _ _ _ _ Hl Ha), Ht. reflexivity. }
  pose proof (loop_body_execute s c _ Hg He) as Hb.
  eexists. split; [exact Hb|].
  assert (Hstop : running
            (set_program_counter (program_counter (jumped len s) + 1)
               (jumped len s)) = false).
  { unfold running. simpl. fold len. apply Z.ltb_ge. lia. }
  split; [simpl; fold len; lia|].
  split; [exact Hstop|].
  intros fuel. simpl. rewrite Hrun, Hb. apply run_finished, Hstop.
Qed.

Lemma end_label_is_exit_witness :
  exists s2,
    load_program exit_text init = (Returned tt, s2)
    /\ labels s2 !! "End" = Some 3
    /\ length (program s2) = 3%nat
    /\ exists s', run 5 s2 = Some (Returned tt, s')
                  /\ program_counter s' = 3
                  /\ registers s' !! "ACC" = Some (VInt 1).
Proof.
  destruct (end_label_is_exit exit_text
              ["LD 1"; "JMPC End"; "LD 7"] "End:" "End" "" init
              (snd (load_lines ["LD 1"; "JMPC End"; "LD 7"] init)))
    as (s2 & Hload & Hprog & Hlab & Hjump);
    [vm_compute; reflexivity ..|].
  exists s2. split; [exact Hload|].
  assert (Hlen : length (program s2) = 3%nat) by (rewrite Hprog; reflexivity).
  assert (Hs : PyStr.strip "End" = "End") by (vm_compute; reflexivity).
  rewrite Hs in Hlab.
  split; [rewrite Hlab, Hlen; reflexivity|].
  split; [exact Hlen|].
  assert (Hs2 : s2 = snd (load_program exit_text init))
    by (rewrite Hload; reflexivity).
  rewrite Hs2.
  eexists. split; [vm_compute; reflexivity|].
  split; vm_compute; reflexivity.
Defined.

(** ** Loading a text with an unknown mnemonic *)

Lemma load_line_unknown line m s :
  mnemonic line = Some m ->
  lookup_command m = None ->
  load_line line s
  = (Raised (ValueError ("Unknown instruction " +:+ m)), label_recorded line s).
Proof.
  unfold mnemonic, instruction_text, load_line, label_recorded.
  destruct (PyStr.split_colon line) as [[label rest]|].
  - destruct (PyStr.split (PyStr.strip rest)) as [|c args] eqn:Hs; [discriminate|].
    intros [= ->] Hl.
    destruct (PyStr.strip rest) as [|a r] eqn:Hr; [discriminate|].
    simpl. unfold parse. rewrite Hs, Hl. reflexivity.
  - destruct (PyStr.split line) as [|c args] eqn:Hs; [discriminate|].
    intros [= ->] Hl.
    destruct line as [|a r]; [discriminate|].
    simpl. unfold parse. rewrite Hs, Hl. reflexivity.
Qed.

Lemma load_lines_unknown_raises lines line m :
  In line lines ->
  mnemonic line = Some m ->
  lookup_command m = None ->
  forall s, exists x s', load_lines lines s = (Raised x, s').
Proof.
  intros Hin Hm Hl.
  induction lines as [|l lines IH]; [destruct Hin|].
  intros s. simpl. unfold bind.
  destruct (load_line l s) as [[[]|x] s1] eqn:E; [|eauto].
  destruct Hin as [-> | Hin].
  - rewrite (load_line_unknown _ _ _ Hm Hl) in E. discriminate.
  - apply IH, Hin.
Qed.

(** C5, as stated, fails: after the failed load of a text whose second
    line has the unknown mnemonic FOO, the instruction of the first line
    and the label of the second are still on the machine. *)
Lemma failed_load_keeps_partial_state :
  mnemonic "L: FOO 1" = Some "FOO"
  /\ lookup_command "FOO" = None
  /\ fst (load_program bad_text init)
     = Raised (ValueError "Unknown instruction FOO")
  /\ program (snd (load_program bad_text init)) = [LoadCommand "5"]
  /\ labels (snd (load_program bad_text init)) !! "L" = Some 1
  /\ ~ (program (snd (load_program bad_text init)) = program init
        /\ labels (snd (load_program bad_text init)) = labels init).
Proof.
  split; [vm_compute; reflexivity|].
  split; [vm_compute; reflexivity|].
  split; [vm_compute; reflexivity|].
  split; [vm_compute; reflexivity|].
  split; [vm_compute; reflexivity|].
  intros [Hp _]. vm_compute in Hp. discriminate.
Qed.

(** C5, amended: a text with a line whose mnemonic is not in the dispatch
    table makes [load_program] raise, with the registers and the program
    counter untouched (nothing has been executed).  When the lines before
    that line load, the error is the ValueError naming the mnemonic, and
    the machine keeps what those lines loaded: their instructions, their
    labels, and the label of the failing line if it has one. *)
Theorem unknown_instruction_aborts_load text line m s0 :
  In line (program_lines text) ->
  mnemonic line = Some m ->
  lookup_command m = None ->
  (exists x s',
      load_program text s0 = (Raised x, s')
      /\ registers s' = registers s0
      /\ program_counter s' = program_counter s0)
  /\ forall (pre post : list string) s1,
       program_lines text = (pre ++ line :: post)%list ->
       load_lines pre s0 = (Returned tt, s1) ->
       load_program text s0
       = (Raised (ValueError ("Unknown instruction " +:+ m)),
          label_recorded line s1)
       /\ program (label_recorded line s1) = program s1.
Proof.
  intros Hin Hm Hl. split.
  - destruct (load_lines_unknown_raises _ _ _ Hin Hm Hl s0) as (x & s' & E).
    exists x, s'. split; [exact E|]. eapply load_lines_frame, E.
  - intros pre post s1 Hlines Hpre. split.
    + unfold load_program. rewrite Hlines, load_lines_app.
      unfold bind. rewrite Hpre. simpl. unfold bind.
      rewrite (load_line_unknown _ _ _ Hm Hl). reflexivity.
    + unfold label_recorded.
      destruct (PyStr.split_colon line) as [[label rest]|]; reflexivity.
Qed.

Lemma unknown_instruction_aborts_load_witness :
  load_program bad_text init
  = (Raised (ValueError "Unknown instruction FOO"),
     label_recorded "L: FOO 1" (snd (load_lines ["LD 5"] init))).
Proof.
  assert (Hin : In "L: FOO 1" (program_lines bad_text))
    by (vm_compute; auto).
  assert (Hm : mnemonic "L: FOO 1" = Some "FOO") by (vm_compute; reflexivity).
  assert (Hl : lookup_command "FOO" = None) by (vm_compute; reflexivity).
  destruct (unknown_instruction_aborts_load bad_text "L: FOO 1" "FOO" init
              Hin Hm Hl) as [_ Hfirst].
  apply (Hfirst ["LD 5"] ["ST A"]); vm_compute; reflexivity.
Defined.

(** ** Arithmetic under the mask *)

Lemma execute_binary_returns k e s acc v z :
  registers s !! "ACC" = Some acc ->
  evaluate_expression e s = (Returned v, s) ->
  apply_operation k (mask32 v) s
  = (Returned tt, set_registers (<["ACC" := VInt z]> (registers s)) s) ->
  exists s',
    execute (BinaryCommand k e) s = (Returned tt, s')
    /\ registers s' !! "ACC" = Some (VInt (mask32 z))
    /\ (forall name, name <> "ACC" ->
          registers s' !! name = normalize (registers s) !! name)
    /\ program_counter s' = program_counter s.
Proof.
  intros Ha He Hop.
  eexists. split.
  { unfold execute, debug_decorator. unfold bind at 1. unfold bind at 1.
    rewrite He. unfold bind at 1. rewrite Hop. unfold_calls. simpl.
    rewrite lookup_insert_eq. reflexivity. }
  simpl. split; [|split; [|reflexivity]].
  - change (normalize (<["ACC" := VInt (mask32 (to_int (VInt z)))]>
              (<["ACC" := VInt z]> (registers s))) !! "ACC"
            = Some (VInt (mask32 z))).
    rewrite normalize_lookup, lookup_insert_eq. simpl.
    rewrite mask32_idem. reflexivity.
  - intros name Hne.
    change (normalize (<["ACC" := VInt (mask32 (to_int (VInt z)))]>
              (<["ACC" := VInt z]> (registers s))) !! name
            = normalize (registers s) !! name).
    rewrite !normalize_lookup, !lookup_insert_ne by congruence. reflexivity.
Qed.

(** C6: executing ADD with ACC holding the integer [a] and an operand
    that evaluates to [v] leaves ACC equal to (a + v) mod 2^32; and the
    program LD 16#FFFFFFFF, ADD 1, ST A runs to its end with A = 0. *)
Theorem add_wraps_mod_2_32 s e a v :
  registers s !! "ACC" = Some (VInt a) ->
  fst (evaluate_expression e s) = Returned v ->
  (exists s',
      execute (BinaryCommand AddCommand e) s = (Returned tt, s')
      /\ registers s' !! "ACC" = Some (VInt ((a + v) mod 2 ^ 32)))
  /\ exists final,
       load_and_run 3 add_text = Some (Returned tt, final)
       /\ registers final !! "A" = Some (VInt 0).
Proof.
  intros Ha He. apply evaluate_expression_fst in He.
  split.
  - destruct (evaluate_expression_total e s) as (w & Hw & Hr).
    assert (w = v) as -> by congruence.
    destruct (execute_binary_returns AddCommand e s (VInt a) v
                (mask32 (a + mask32 v)) Ha He)
      as (s' & Hex & Hacc & _).
    { unfold apply_operation. unfold_calls. rewrite Ha. reflexivity. }
    exists s'. split; [exact Hex|].
    rewrite Hacc, mask32_idem, (mask32_small v Hr), mask32_mod. reflexivity.
  - eexists. split; vm_compute; reflexivity.
Qed.

Lemma add_wraps_mod_2_32_witness :
  let s := after_turns 1 (start [LoadCommand "16#FFFFFFFF"] ∅) in
  registers s !! "ACC" = Some (VInt 4294967295)
  /\ exists s',
       execute (BinaryCommand AddCommand "1") s = (Returned tt, s')
       /\ registers s' !! "ACC" = Some (VInt 0).
Proof.
  intros s.
  assert (Ha : registers s !! "ACC" = Some (VInt 4294967295))
    by (vm_compute; reflexivity).
  assert (He : fst (evaluate_expression "1" s) = Returned 1)
    by (vm_compute; reflexivity).
  split; [exact Ha|].
  destruct (add_wraps_mod_2_32 s "1" 4294967295 1 Ha He)
    as [(s' & Hex & Hacc) _].
  exists s'. split; [exact Hex|exact Hacc].
Defined.

(** ** NOT *)

Lemma execute_not s acc :
  registers s !! "ACC" = Some acc ->
  exists s',
    execute NotCommand s = (Returned tt, s')
    /\ registers s' !! "ACC" = Some (VInt (mask32 (Z.lnot (to_int acc))))
    /\ (forall name, name <> "ACC" ->
          registers s' !! name = normalize (registers s) !! name)
    /\ program_counter s' = program_counter s
    /\ program s' = program s.
Proof.
  intros Ha. eexists. split.
  { unfold execute. unfold_calls. rewrite Ha. reflexivity. }
  simpl. split; [|split; [|split; reflexivity]].
  - change (normalize (<["ACC" := VInt (mask32 (Z.lnot (to_int acc)))]>
              (registers s)) !! "ACC"
            = Some (VInt (mask32 (Z.lnot (to_int acc))))).
    rewrite normalize_lookup, lookup_insert_eq. simpl.
    rewrite mask32_idem. reflexivity.
  - intros name Hne.
    change (normalize (<["ACC" := VInt (mask32 (Z.lnot (to_int acc)))]>
              (registers s)) !! name
            = normalize (registers s) !! name).
    rewrite !normalize_lookup, !lookup_insert_ne by congruence. reflexivity.
Qed.

Lemma execute_load s e v :
  evaluate_expression e s = (Returned v, s) ->
  0 <= v < 2 ^ 32 ->
  exists s',
    execute (LoadCommand e) s = (Returned tt, s')
    /\ registers s' !! "ACC" = Some (VInt v)
    /\ program_counter s' = program_counter s
    /\ program s' = program s.
Proof.
  intros He Hr. eexists. split.
  { unfold execute. unfold_calls. rewrite He. reflexivity. }
  simpl. split; [|split; reflexivity].
  change (normalize (<["ACC" := VInt (mask32 v)]> (registers s)) !! "ACC"
          = Some (VInt v)).
  rewrite normalize_lookup, lookup_insert_eq. simpl.
  rewrite mask32_idem, (mask32_small v Hr). reflexivity.
Qed.

Lemma execute_store s variable acc :
  registers s !! "ACC" = Some acc ->
  exists s',
    execute (StoreCommand variable) s = (Returned tt, s')
    /\ registers s' !! variable = Some (VInt (mask32 (to_int acc)))
    /\ program_counter s' = program_counter s
    /\ program s' = program s.
Proof.
  intros Ha. eexists. split.
  { unfold execute. unfold_calls. rewrite Ha. reflexivity. }
  simpl. split; [|split; reflexivity].
  change (normalize (<[variable := acc]> (registers s)) !! variable
          = Some (VInt (mask32 (to_int acc)))).
  rewrite normalize_lookup, lookup_insert_eq. reflexivity.
Qed.

Lemma run_turn fuel s c s1 :
  running s = true ->
  getitem (program s) (program_counter s) = Some c ->
  execute c s = (Returned tt, s1) ->
  run (S fuel) s
  = run fuel (set_program_counter (program_counter s1 + 1) s1).
Proof.
  intros Hrun Hg He. simpl.
  rewrite Hrun, (loop_body_execute _ _ _ Hg He). reflexivity.
Qed.

(** The operand's value depends on the register table only. *)
Lemma evaluate_expression_registers e s s' :
  registers s = registers s' ->
  fst (evaluate_expression e s) = fst (evaluate_expression e s').
Proof.
  intros H. unfold evaluate_expression. rewrite H.
  destruct (evaluate_expression_try (registers s') e) as [v|[]]; reflexivity.
Qed.

(** Running LD e, NOT, NOT, ST A from a fresh register table. *)
Lemma not_not_program_runs e v :
  fst (evaluate_expression e init) = Returned v ->
  exists final,
    run 4 (start (not_not_program e) ∅) = Some (Returned tt, final)
    /\ registers final !! "A" = Some (VInt v)
    /\ registers final !! "ACC" = Some (VInt v).
Proof.
  intros He.
  set (s0 := start (not_not_program e) ∅).
  rewrite (evaluate_expression_registers e init s0 eq_refl) in He.
  apply evaluate_expression_fst in He.
  destruct (evaluate_expression_total e s0) as (w & Hw & Hr).
  assert (w = v) as -> by congruence.
  destruct (execute_load s0 e v He Hr) as (s1 & E1 & A1 & P1 & G1).
  rewrite (run_turn 3 s0 (LoadCommand e) s1 eq_refl eq_refl E1).
  set (t1 := set_program_counter (program_counter s1 + 1) s1).
  assert (Ht1 : program t1 = not_not_program e /\ program_counter t1 = 1).
  { subst t1. simpl. rewrite P1, G1. auto. }
  destruct Ht1 as [Hp1 Hc1].
  destruct (execute_not t1 (VInt v) A1) as (s2 & E2 & A2 & _ & P2 & G2).
  rewrite (run_turn 2 t1 NotCommand s2); [| | |exact E2];
    [|unfold running; rewrite Hp1, Hc1; reflexivity
     |rewrite Hp1, Hc1; reflexivity].
  set (t2 := set_program_counter (program_counter s2 + 1) s2).
  assert (Ht2 : program t2 = not_not_program e /\ program_counter t2 = 2).
  { subst t2. simpl. rewrite P2, G2, Hc1. auto. }
  destruct Ht2 as [Hp2 Hc2].
  destruct (execute_not t2 _ A2) as (s3 & E3 & A3 & _ & P3 & G3).
  rewrite (run_turn 1 t2 NotCommand s3); [| | |exact E3];
    [|unfold running; rewrite Hp2, Hc2; reflexivity
     |rewrite Hp2, Hc2; reflexivity].
  set (t3 := set_program_counter (program_counter s3 + 1) s3).
  assert (Ht3 : program t3 = not_not_program e /\ program_counter t3 = 3).
  { subst t3. simpl. rewrite P3, G3, Hc2. auto. }
  destruct Ht3 as [Hp3 Hc3].
  simpl in A3. rewrite mask32_lnot_lnot, (mask32_small v Hr) in A3.
  destruct (execute_store t3 "A" _ A3) as (s4 & E4 & A4 & P4 & G4).
  rewrite (run_turn 0 t3 (StoreCommand "A") s4); [| | |exact E4];
    [|unfold running; rewrite Hp3, Hc3; reflexivity
     |rewrite Hp3, Hc3; reflexivity].
  simpl in A4. rewrite (mask32_small v Hr) in A4.
  eexists. split.
  { apply run_finished. unfold running. simpl.
    rewrite P4, G4, Hp3, Hc3. reflexivity. }
  simpl. split; [exact A4|].
  revert E4. unfold execute. unfold_calls. change (registers t3) with (registers s3).
  rewrite A3. intros [= <-]. simpl.
  change (normalize (<["A" := VInt v]> (registers s3)) !! "ACC" = Some (VInt v)).
  rewrite normalize_lookup, lookup_insert_ne by discriminate.
  rewrite A3. simpl. rewrite (mask32_small v Hr). reflexivity.
Qed.

(** *** Decimal literals *)

Example numeral_4294967295 : numeral 4294967295 = "4294967295".
Proof. vm_compute. reflexivity. Qed.

Lemma code_digit_char d : 0 <= d < 10 -> PyStr.code (digit_char d) = 48 + d.
Proof.
  intros H.
  assert (d = 0 \/ d = 1 \/ d = 2 \/ d = 3 \/ d = 4 \/ d = 5 \/ d = 6
          \/ d = 7 \/ d = 8 \/ d = 9) as Hd by lia.
  repeat (destruct Hd as [-> | Hd]; [reflexivity|]). subst d. reflexivity.
Qed.

Lemma numeral_digits_value fuel : forall n tail,
  0 <= n < 10 ^ Z.of_nat fuel ->
  PyStr.decimal_value 0 (numeral_digits fuel n tail)
  = PyStr.decimal_value n tail.
Proof.
  induction fuel as [|fuel IH]; intros n tail Hn.
  - simpl in Hn. assert (n = 0) as -> by lia. reflexivity.
  - cbn [numeral_digits].
    pose proof (Z.mod_pos_bound n 10 ltac:(lia)) as Hm.
    destruct (n <? 10) eqn:Hlt.
    + apply Z.ltb_lt in Hlt. cbn [PyStr.decimal_value].
      rewrite code_digit_char by exact Hm.
      rewrite Z.mod_small by lia. f_equal. lia.
    + apply Z.ltb_ge in Hlt.
      rewrite IH.
      * cbn [PyStr.decimal_value]. rewrite code_digit_char by exact Hm.
        f_equal. pose proof (Z.div_mod n 10 ltac:(lia)). lia.
      * rewrite Nat2Z.inj_succ, Z.pow_succ_r in Hn by lia.
        split; [apply Z.div_pos; lia|].
        apply Z.div_lt_upper_bound; lia.
Qed.

Lemma numeral_digits_decimal fuel : forall n tail,
  0 <= n ->
  PyStr.forallb PyStr.is_decimal_char tail = true ->
  PyStr.forallb PyStr.is_decimal_char (numeral_digits fuel n tail) = true.
Proof.
  induction fuel as [|fuel IH]; intros n tail Hn Ht; [exact Ht|].
  cbn [numeral_digits].
  pose proof (Z.mod_pos_bound n 10 ltac:(lia)) as Hm.
  assert (Hc : PyStr.forallb PyStr.is_decimal_char
                 (String (digit_char (n mod 10)) tail) = true).
  { cbn [PyStr.forallb]. rewrite Ht, andb_true_r.
    unfold PyStr.is_decimal_char. rewrite code_digit_char by exact Hm.
    apply andb_true_intro. split; apply Z.leb_le; lia. }
  destruct (n <? 10); [exact Hc|].
  apply IH; [apply Z.div_pos; lia|exact Hc].
Qed.

Lemma numeral_digits_nonempty fuel : forall n tail,
  PyStr.is_empty (numeral_digits (S fuel) n tail) = false.
Proof.
  induction fuel as [|fuel IH]; intros n tail.
  - cbn [numeral_digits]. destruct (n <? 10); reflexivity.
  - cbn [numeral_digits] in *. destruct (n <? 10); [reflexivity|].
    specialize (IH (n / 10) (String (digit_char (n mod 10)) tail)).
    destruct (n / 10 <? 10); exact IH.
Qed.

Lemma forallb_weaken (p q : ascii -> bool) s :
  (forall c, p c = true -> q c = true) ->
  PyStr.forallb p s = true -> PyStr.forallb q s = true.
Proof.
  intros Hpq. induction s as [|c s IH]; simpl; [auto|].
  intros H. apply andb_prop in H as [Hc Hs].
  rewrite (Hpq _ Hc), (IH Hs). reflexivity.
Qed.

(** The decimal literal of a 32-bit value evaluates to that value. *)
Lemma evaluate_numeral regs v :
  0 <= v < 2 ^ 32 ->
  evaluate_expression_try regs (numeral v) = Returned v.
Proof.
  intros Hv. unfold evaluate_expression_try, numeral.
  assert (Hd : PyStr.forallb PyStr.is_decimal_char (numeral_digits 10 v "")
               = true)
    by (apply numeral_digits_decimal; [lia|reflexivity]).
  assert (Hne : PyStr.is_empty (numeral_digits 10 v "") = false)
    by apply numeral_digits_nonempty.
  assert (Hdig : PyStr.isdigit (numeral_digits 10 v "") = true).
  { unfold PyStr.isdigit. rewrite Hne. cbn [negb andb].
    apply (forallb_weaken PyStr.is_decimal_char); [|exact Hd].
    intros c Hc. unfold PyStr.is_digit_char. rewrite Hc. reflexivity. }
  rewrite Hdig. unfold PyStr.int_decimal. rewrite Hne, Hd.
  cbn [negb andb].
  rewrite numeral_digits_value by (change (10 ^ Z.of_nat 10) with 10000000000; lia).
  cbn [PyStr.decimal_value]. rewrite mask32_small by exact Hv. reflexivity.
Qed.

(** *** Loading a line LD e *)

Lemma rstrip_no_space s :
  PyStr.forallb (fun c => negb (PyStr.isspace c)) s = true ->
  PyStr.rstrip s = s.
Proof.
  induction s as [|c s IH]; [reflexivity|]. cbn [PyStr.forallb PyStr.rstrip].
  intros H. apply andb_prop in H as [Hc Hs]. rewrite (IH Hs).
  apply negb_true_iff in Hc. rewrite Hc. reflexivity.
Qed.

Lemma split_at_none p s :
  PyStr.forallb (fun c => negb (p c)) s = true -> PyStr.split_at p s = [s].
Proof.
  induction s as [|c s IH]; [reflexivity|].
  cbn [PyStr.forallb PyStr.split_at].
  intros H. apply andb_prop in H as [Hc Hs]. rewrite (IH Hs).
  apply negb_true_iff in Hc. rewrite Hc. reflexivity.
Qed.

Lemma split_at_app p a c b :
  PyStr.forallb (fun c => negb (p c)) a = true -> p c = true ->
  PyStr.split_at p (a +:+ String c b) = a :: PyStr.split_at p b.
Proof.
  intros Ha Hc. induction a as [|x a IH].
  - change ("" +:+ String c b) with (String c b).
    cbn [PyStr.split_at]. rewrite Hc. reflexivity.
  - cbn [PyStr.forallb] in Ha. apply andb_prop in Ha as [Hx Ha].
    apply negb_true_iff in Hx.
    change (String x a +:+ String c b) with (String x (a +:+ String c b)).
    cbn [PyStr.split_at]. rewrite Hx, (IH Ha). reflexivity.
Qed.

Lemma split_colon_none s :
  PyStr.forallb (fun c => negb (PyStr.code c =? 58)) s = true ->
  PyStr.split_colon s = None.
Proof.
  induction s as [|c s IH]; [reflexivity|].
  cbn [PyStr.forallb PyStr.split_colon].
  intros H. apply andb_prop in H as [Hc Hs]. rewrite (IH Hs).
  apply negb_true_iff in Hc. rewrite Hc. reflexivity.
Qed.

Lemma plain_parts e :
  plain e = true ->
  PyStr.is_empty e = false
  /\ PyStr.forallb (fun c => negb (PyStr.isspace c)) e = true
  /\ PyStr.forallb (fun c => negb (PyStr.code c =? 58)) e = true
  /\ PyStr.forallb (fun c => negb (PyStr.code c =? 10)) e = true.
Proof.
  unfold plain. intros H. apply andb_prop in H as [Hne Hall].
  apply negb_true_iff in Hne. split; [exact Hne|].
  split; [|split]; apply (forallb_weaken plain_char); try exact Hall;
    intros c Hc; unfold plain_char in Hc; apply andb_prop in Hc as [Hs Hk];
    try assumption.
  apply negb_true_iff in Hs. apply negb_true_iff.
  destruct (PyStr.code c =? 10) eqn:E; [|reflexivity].
  apply Z.eqb_eq in E. unfold PyStr.isspace in Hs. rewrite E in Hs.
  discriminate.
Qed.

Lemma load_line_ld e s :
  plain e = true ->
  load_line ("LD " +:+ e) s
  = (Returned tt, set_program (program s ++ [LoadCommand e]) s).
Proof.
  intros Hp. destruct (plain_parts e Hp) as (Hne & Hsp & Hco & _).
  unfold load_line.
  change ("LD " +:+ e) with (String "L" (String "D" (String " " e))).
  assert (Hc : PyStr.split_colon (String "L" (String "D" (String " " e)))
               = None).
  { cbn [PyStr.split_colon].
    change (PyStr.code "L" =? 58) with false.
    change (PyStr.code "D" =? 58) with false.
    change (PyStr.code " " =? 58) with false.
    cbn iota. rewrite (split_colon_none e Hco). reflexivity. }
  rewrite Hc.
  assert (Hs : PyStr.split (String "L" (String "D" (String " " e)))
               = ["LD"; e]).
  { unfold PyStr.split. cbn [PyStr.split_at].
    change (PyStr.isspace "L") with false.
    change (PyStr.isspace "D") with false.
    change (PyStr.isspace " ") with true.
    cbn iota. rewrite (split_at_none _ e Hsp).
    cbn [List.filter PyStr.is_empty negb]. rewrite Hne. reflexivity. }
  unfold parse. rewrite Hs. reflexivity.
Qed.

Lemma strip_ld e :
  plain e = true -> PyStr.strip ("LD " +:+ e) = "LD " +:+ e.
Proof.
  intros Hp. destruct (plain_parts e Hp) as (Hne & Hsp & _).
  change ("LD " +:+ e) with (String "L" (String "D" (String " " e))).
  unfold PyStr.strip. cbn [PyStr.lstrip].
  change (PyStr.isspace "L") with false. cbn iota.
  cbn [PyStr.rstrip]. rewrite (rstrip_no_space e Hsp), Hne.
  change (PyStr.isspace "L") with false.
  change (PyStr.isspace "D") with false.
  rewrite andb_false_r. reflexivity.
Qed.

Lemma program_lines_not_not e :
  plain e = true ->
  program_lines (not_not_source e) = ["LD " +:+ e; "NOT"; "NOT"; "ST A"].
Proof.
  intros Hp. destruct (plain_parts e Hp) as (Hne & _ & _ & Hnl).
  unfold program_lines, PyStr.split_lines, not_not_source.
  change ("LD " +:+ e +:+ LF +:+ "NOT" +:+ LF +:+ "NOT" +:+ LF +:+ "ST A")
    with (("LD " +:+ e)
            +:+ String (ascii_of_nat 10)
                  ("NOT" +:+ LF +:+ "NOT" +:+ LF +:+ "ST A")).
  rewrite split_at_app; [| |reflexivity].
  - cbn [List.filter List.map].
    rewrite (strip_ld e Hp).
    change (PyStr.is_empty ("LD " +:+ e)) with false.
    cbn [negb]. cbn [List.map]. rewrite (strip_ld e Hp).
    f_equal.
  - change ("LD " +:+ e) with (String "L" (String "D" (String " " e))).
    cbn [PyStr.forallb]. rewrite Hnl. reflexivity.
Qed.

Lemma load_not_not_source e :
  plain e = true ->
  load_program (not_not_source e) init
  = (Returned tt, start (not_not_program e) ∅).
Proof.
  intros Hp. unfold load_program. rewrite (program_lines_not_not e Hp).
  cbn [load_lines]. unfold bind at 1. rewrite (load_line_ld e _ Hp).
  reflexivity.
Qed.

Lemma numeral_plain v : 0 <= v -> plain (numeral v) = true.
Proof.
  intros Hv. unfold plain, numeral.
  rewrite numeral_digits_nonempty. cbn [negb andb].
  apply (forallb_weaken PyStr.is_decimal_char).
  - intros c Hc. unfold PyStr.is_decimal_char in Hc.
    apply andb_prop in Hc as [H1 H2].
    apply Z.leb_le in H1. apply Z.leb_le in H2.
    unfold plain_char, PyStr.isspace.
    repeat match goal with
           | |- context [?a <=? ?b] =>
               let E := fresh in destruct (Z.leb_spec a b) as [E|E]
           | |- context [?a =? ?b] =>
               let E := fresh in destruct (Z.eqb_spec a b) as [E|E]
           end; try reflexivity; lia.
  - apply numeral_digits_decimal; [exact Hv|reflexivity].
Qed.

(** C7: for every 32-bit value [v], executing NOT twice with ACC = v
    leaves ACC = v; the program LD e, NOT, NOT, ST A, for any operand [e]
    denoting [v], runs to its end with A = v & 0xFFFFFFFF, as a sequence of
    commands and, when [e] is a plain token, as a text loaded and run; and
    the decimal literal of [v] is such a token. *)
Theorem not_is_involution v :
  0 <= v < 2 ^ 32 ->
  (forall s,
      registers s !! "ACC" = Some (VInt v) ->
      exists s1 s2,
        execute NotCommand s = (Returned tt, s1)
        /\ execute NotCommand s1 = (Returned tt, s2)
        /\ registers s2 !! "ACC" = Some (VInt v))
  /\ (forall e,
        fst (evaluate_expression e init) = Returned v ->
        (exists final,
            run 4 (start (not_not_program e) ∅) = Some (Returned tt, final)
            /\ registers final !! "A" = Some (VInt (mask32 v)))
        /\ (plain e = true ->
            exists final,
              load_and_run 4 (not_not_source e) = Some (Returned tt, final)
              /\ registers final !! "A" = Some (VInt (mask32 v))))
  /\ plain (numeral v) = true
  /\ fst (evaluate_expression (numeral v) init) = Returned v.
Proof.
  intros Hv. split; [|split; [|split]].
  - intros s Ha.
    destruct (execute_not s _ Ha) as (s1 & E1 & A1 & _).
    destruct (execute_not s1 _ A1) as (s2 & E2 & A2 & _).
    exists s1, s2. split; [exact E1|]. split; [exact E2|].
    simpl in A2. rewrite mask32_lnot_lnot, (mask32_small v Hv) in A2.
    exact A2.
  - intros e He.
    destruct (not_not_program_runs e v He) as (final & Hrun & HA & _).
    rewrite <- (mask32_small v Hv) in HA at 1.
    split; [exists final; split; [exact Hrun|exact HA]|].
    intros Hp. exists final. split; [|exact HA].
    unfold load_and_run. rewrite (load_not_not_source e Hp). exact Hrun.
  - apply numeral_plain. lia.
  - unfold evaluate_expression. rewrite (evaluate_numeral _ v Hv). reflexivity.
Qed.

Lemma not_is_involution_witness :
  not_not_source (numeral 305419896)
  = "LD 305419896" +:+ LF +:+ "NOT" +:+ LF +:+ "NOT" +:+ LF +:+ "ST A"
  /\ exists final,
       load_and_run 4 (not_not_source (numeral 305419896))
       = Some (Returned tt, final)
       /\ registers final !! "A" = Some (VInt (mask32 305419896)).
Proof.
  split; [vm_compute; reflexivity|].
  destruct (not_is_involution 305419896 ltac:(lia)) as (_ & Hprog & Hpl & Hnum).
  destruct (Hprog (numeral 305419896) Hnum) as [_ Htext].
  exact (Htext Hpl).
Defined.

(** ** Operands that denote nothing *)

Lemma evaluate_expression_recovers e s x :
  evaluate_expression_try (registers s) e = Raised x ->
  evaluate_expression e s = (Returned 0, s).
Proof.
  intros E. unfold evaluate_expression. rewrite E.
  destruct (evaluate_expression_try_raises _ _ _ E) as [msg ->]. reflexivity.
Qed.

(** C2, as stated, fails: X is neither a literal nor a register of the
    fresh interpreter, yet evaluating it produces the value 0 and raises
    nothing, and LD X runs to its end with ACC = 0. *)
Lemma unknown_operand_evaluates_to_zero :
  PyStr.isdigit "X" = false
  /\ PyStr.startswith "16#" "X" = false
  /\ registers init !! "X" = None
  /\ evaluate_expression "X" init = (Returned 0, init)
  /\ ~ (exists x s', evaluate_expression "X" init = (Raised x, s'))
  /\ exists final,
       load_and_run 1 "LD X" = Some (Returned tt, final)
       /\ registers final !! "ACC" = Some (VInt 0).
Proof.
  split; [reflexivity|]. split; [reflexivity|].
  split; [vm_compute; reflexivity|].
  assert (E : evaluate_expression "X" init = (Returned 0, init))
    by (apply evaluate_expression_recovers
          with (x := ValueError "Unknown expression: X");
        vm_compute; reflexivity).
  split; [exact E|].
  split; [intros (x & s' & H); rewrite E in H; discriminate|].
  eexists. split; vm_compute; reflexivity.
Qed.

(** C2, amended: for an operand that is not a string of digits, does not
    start with 16# and names no register of the table, the body of
    [evaluate_expression] raises the ValueError that names the operand;
    [evaluate_expression] catches it and returns 0, with the interpreter
    unchanged, so the instruction receives a value and no error. *)
Theorem unknown_operand_caught tok s :
  PyStr.isdigit tok = false ->
  PyStr.startswith "16#" tok = false ->
  registers s !! tok = None ->
  evaluate_expression_try (registers s) tok
  = Raised (ValueError ("Unknown expression: " +:+ tok))
  /\ evaluate_expression tok s = (Returned 0, s).
Proof.
  intros Hd Hh Hr.
  assert (E : evaluate_expression_try (registers s) tok
              = Raised (ValueError ("Unknown expression: " +:+ tok))).
  { unfold evaluate_expression_try. rewrite Hd, Hh, Hr. reflexivity. }
  split; [exact E|]. eapply evaluate_expression_recovers, E.
Qed.

Lemma unknown_operand_caught_witness :
  evaluate_expression_try (registers init) "X"
  = Raised (ValueError "Unknown expression: X")
  /\ evaluate_expression "X" init = (Returned 0, init).
Proof.
  apply (unknown_operand_caught "X" init);
    [reflexivity | reflexivity | vm_compute; reflexivity].
Defined.

(** C9, as stated, fails in its last part: DIV with an operand that
    denotes nothing does fail, dividing by the 0 put in its place (and a
    jump whose label operand is not in the label table fails too). *)
Lemma div_by_unresolvable_operand_fails :
  unresolvable "nosuch" init
  /\ evaluate_expression "nosuch" init = (Returned 0, init)
  /\ execute (BinaryCommand DivCommand "nosuch") init
     = (Raised ZeroDivisionError, init)
  /\ load_and_run 1 "DIV nosuch"
     = Some (Raised ZeroDivisionError,
             snd (load_program "DIV nosuch" init))
  /\ execute (JmpCommand "nosuch") init = (Raised (KeyError "nosuch"), init).
Proof.
  split; [eexists; vm_compute; reflexivity|].
  split; [|split; [|split]; vm_compute; reflexivity].
  apply evaluate_expression_recovers
    with (x := ValueError "Unknown expression: nosuch").
  vm_compute. reflexivity.
Qed.

Lemma execute_binary_total k e s :
  is_Some (registers s !! "ACC") ->
  k <> DivCommand -> k <> ModCommand ->
  exists s', execute (BinaryCommand k e) s = (Returned tt, s').
Proof.
  intros [acc Ha] Hd Hm.
  destruct (evaluate_expression_total e s) as (v & Hv & _).
  assert (exists z, apply_operation k (mask32 v) s
            = (Returned tt,
               set_registers (<["ACC" := VInt z]> (registers s)) s))
    as [z Hop].
  { destruct k; try congruence; unfold apply_operation; unfold_calls;
      rewrite Ha; eexists; reflexivity. }
  destruct (execute_binary_returns k e s acc v z Ha Hv Hop) as (s' & E & _).
  eauto.
Qed.

(** C9, amended: [evaluate_expression] never raises and leaves the
    interpreter alone; its value is a 32-bit integer, and it is 0 whenever
    its body raises, as on 16#GZ and on a token that is neither a literal
    nor a register.  So LD, ANDN and every binary instruction other than
    DIV and MOD return whatever the operand (with ACC present); DIV and MOD
    with an operand that denotes nothing raise ZeroDivisionError. *)
Theorem evaluate_expression_never_raises e s :
  is_Some (registers s !! "ACC") ->
  (exists v, evaluate_expression e s = (Returned v, s) /\ 0 <= v < 2 ^ 32)
  /\ (unresolvable e s -> evaluate_expression e s = (Returned 0, s))
  /\ evaluate_expression "16#GZ" s = (Returned 0, s)
  /\ (PyStr.isdigit e = false -> PyStr.startswith "16#" e = false ->
      registers s !! e = None -> evaluate_expression e s = (Returned 0, s))
  /\ (exists s', execute (LoadCommand e) s = (Returned tt, s'))
  /\ (exists s', execute (AndnCommand e) s = (Returned tt, s'))
  /\ (forall k, k <> DivCommand -> k <> ModCommand ->
        exists s', execute (BinaryCommand k e) s = (Returned tt, s'))
  /\ (forall k, k = DivCommand \/ k = ModCommand -> unresolvable e s ->
        execute (BinaryCommand k e) s = (Raised ZeroDivisionError, s)).
Proof.
  intros Hacc.
  assert (Hrec : unresolvable e s -> evaluate_expression e s = (Returned 0, s)).
  { intros [x E]. eapply evaluate_expression_recovers, E. }
  split; [apply evaluate_expression_total|].
  split; [exact Hrec|].
  split; [eapply evaluate_expression_recovers; reflexivity|].
  split.
  { intros Hd Hh Hr. apply Hrec. eexists.
    unfold evaluate_expression_try. rewrite Hd, Hh, Hr. reflexivity. }
  destruct (evaluate_expression_total e s) as (v & Hv & Hrange).
  split.
  { destruct (execute_load s e v Hv Hrange) as (s' & E & _). eauto. }
  split.
  { destruct Hacc as [acc Ha]. eexists.
    unfold execute. unfold_calls. rewrite Hv, Ha. reflexivity. }
  split; [intros k Hd Hm; apply execute_binary_total; assumption|].
  intros k Hk Hu. specialize (Hrec Hu).
  destruct Hacc as [acc Ha].
  unfold execute, debug_decorator. unfold bind at 1. unfold bind at 1.
  rewrite Hrec. unfold bind at 1.
  assert (Hap : apply_operation k (mask32 0) s = (Raised ZeroDivisionError, s)).
  { destruct Hk as [-> | ->]; unfold apply_operation; unfold_calls;
      rewrite Ha; reflexivity. }
  rewrite Hap. reflexivity.
Qed.

Lemma evaluate_expression_never_raises_witness :
  evaluate_expression "16#GZ" init = (Returned 0, init)
  /\ evaluate_expression "nosuch" init = (Returned 0, init)
  /\ exists s', execute (BinaryCommand MulCommand "nosuch") init
                = (Returned tt, s').
Proof.
  assert (Hacc : is_Some (registers init !! "ACC"))
    by (eexists; vm_compute; reflexivity).
  destruct (evaluate_expression_never_raises "nosuch" init Hacc)
    as (_ & _ & Hhex & Hunk & _ & _ & Hbin & _).
  split; [exact Hhex|].
  split; [apply Hunk; vm_compute; reflexivity|].
  apply Hbin; discriminate.
Defined.

(** * Further properties of the interpreter *)

(** ** What each instruction computes *)

Lemma mask32_land a v : 0 <= a < 2 ^ 32 -> mask32 (Z.land a v) = Z.land a v.
Proof.
  intros Ha. unfold mask32.
  rewrite <- Z.land_assoc, (Z.land_comm v MASK), Z.land_assoc.
  change (Z.land a MASK) with (mask32 a). rewrite (mask32_small a Ha).
  reflexivity.
Qed.

Lemma mask32_lor a v :
  0 <= a < 2 ^ 32 -> 0 <= v < 2 ^ 32 -> mask32 (Z.lor a v) = Z.lor a v.
Proof.
  intros Ha Hv. unfold mask32. rewrite Z.land_lor_distr_l.
  change (Z.land a MASK) with (mask32 a).
  change (Z.land v MASK) with (mask32 v).
  rewrite (mask32_small a Ha), (mask32_small v Hv). reflexivity.
Qed.

Lemma mask32_lxor a v :
  0 <= a < 2 ^ 32 -> 0 <= v < 2 ^ 32 -> mask32 (Z.lxor a v) = Z.lxor a v.
Proof.
  intros Ha Hv.
  transitivity (Z.lxor (mask32 a) (mask32 v)).
  - unfold mask32. apply Z.bits_inj'. intros n Hn.
    rewrite Z.land_spec, !Z.lxor_spec, !Z.land_spec.
    destruct (Z.testbit a n), (Z.testbit v n), (Z.testbit MASK n); reflexivity.
  - rewrite (mask32_small a Ha), (mask32_small v Hv). reflexivity.
Qed.

(** [~v & 0xFFFFFFFF] is the 32-bit complement. *)
Lemma mask32_lnot v : 0 <= v < 2 ^ 32 -> mask32 (Z.lnot v) = 2 ^ 32 - 1 - v.
Proof.
  intros Hv. rewrite mask32_mod. unfold Z.lnot.
  symmetry. apply (Z.mod_unique _ _ (-1)); lia.
Qed.

Lemma normalize_insert regs name v :
  normalize (<[name := v]> regs)
  = <[name := VInt (mask32 (to_int v))]> (normalize regs).
Proof. unfold normalize. rewrite fmap_insert. reflexivity. Qed.

Lemma reachable_acc s :
  reachable s -> exists a, registers s !! "ACC" = Some (VInt a) /\ 0 <= a < 2 ^ 32.
Proof.
  intros Hr. destruct (reachable_registers s Hr) as [Hm Ha].
  exact (masked_acc_is_word s Hm Ha).
Qed.

(** The interpreter after an instruction that only assigns ACC. *)
Lemma execute_binary_state k e s acc v z :
  masked (registers s) ->
  registers s !! "ACC" = Some acc ->
  evaluate_expression e s = (Returned v, s) ->
  apply_operation k (mask32 v) s
  = (Returned tt, set_registers (<["ACC" := VInt z]> (registers s)) s) ->
  execute (BinaryCommand k e) s
  = (Returned tt, set_registers (<["ACC" := VInt (mask32 z)]> (registers s)) s).
Proof.
  intros Hm Ha He Hop.
  unfold execute, debug_decorator. unfold bind at 1. unfold bind at 1.
  rewrite He. unfold bind at 1. rewrite Hop. unfold_calls. simpl.
  rewrite lookup_insert_eq. simpl. f_equal. unfold set_registers. simpl.
  f_equal.
  change ((fun v0 => VInt (mask32 (to_int v0))) <$>
            <["ACC" := VInt (mask32 z)]> (<["ACC" := VInt z]> (registers s)))
    with (normalize (<["ACC" := VInt (mask32 z)]>
                       (<["ACC" := VInt z]> (registers s)))).
  rewrite insert_insert_eq, normalize_insert, (normalize_id _ Hm). simpl.
  rewrite mask32_idem. reflexivity.
Qed.

Lemma binary_assigns k e s acc v z r :
  masked (registers s) ->
  registers s !! "ACC" = Some acc ->
  evaluate_expression e s = (Returned v, s) ->
  apply_operation k (mask32 v) s
  = (Returned tt, set_registers (<["ACC" := VInt z]> (registers s)) s) ->
  mask32 z = r ->
  assigns_acc (BinaryCommand k e) s r.
Proof.
  intros Hm Ha He Hop <-. split; [|apply mask32_range].
  exact (execute_binary_state k e s acc v z Hm Ha He Hop).
Qed.

Ltac apply_binary Hm Ha He :=
  eapply (binary_assigns _ _ _ _ _ _ _ Hm Ha He);
  [unfold apply_operation; unfold_calls; rewrite Ha; reflexivity|];
  cbn [to_int].

(** X1: in a state a run passes through, with ACC = a and an operand that
    evaluates to v, AND, OR, XOR, ANDN, ORN and XORN return and assign to ACC
    the bitwise and, or, exclusive or of a with v, respectively with the
    32-bit complement of v; the result is a 32-bit value and nothing else in
    the interpreter changes. *)
Theorem bitwise_instructions s e a v :
  reachable s ->
  registers s !! "ACC" = Some (VInt a) ->
  fst (evaluate_expression e s) = Returned v ->
  assigns_acc (BinaryCommand AndCommand e) s (Z.land a v)
  /\ assigns_acc (BinaryCommand OrCommand e) s (Z.lor a v)
  /\ assigns_acc (BinaryCommand XorCommand e) s (Z.lxor a v)
  /\ assigns_acc (AndnCommand e) s (Z.land a (2 ^ 32 - 1 - v))
  /\ assigns_acc (BinaryCommand OrnCommand e) s (Z.lor a (2 ^ 32 - 1 - v))
  /\ assigns_acc (BinaryCommand XornCommand e) s (Z.lxor a (2 ^ 32 - 1 - v)).
Proof.
  intros Hr Ha He. apply evaluate_expression_fst in He.
  destruct (reachable_registers s Hr) as [Hm _].
  destruct (Hm _ _ Ha) as (a' & [= <-] & Hra).
  destruct (evaluate_expression_total e s) as (w & Hw & Hrv).
  assert (w = v) as -> by congruence.
  assert (Hc : 0 <= 2 ^ 32 - 1 - v < 2 ^ 32) by lia.
  split; [|split; [|split; [|split; [|split]]]].
  - apply_binary Hm Ha He.
    rewrite (mask32_small v Hrv), mask32_idem. apply mask32_land, Hra.
  - apply_binary Hm Ha He.
    rewrite (mask32_small v Hrv), mask32_idem. apply mask32_lor; assumption.
  - apply_binary Hm Ha He.
    rewrite (mask32_small v Hrv). apply mask32_lxor; assumption.
  - split; [|rewrite <- (mask32_land a _ Hra); apply mask32_range].
    unfold execute. unfold_calls. rewrite He, Ha. cbn [to_int].
    f_equal. unfold set_registers. cbn [registers program program_counter labels].
    f_equal.
    change ((fun v0 => VInt (mask32 (to_int v0))) <$>
              <["ACC" := VInt (mask32 (Z.land a (mask32 (Z.lnot (mask32 v)))))]>
                (registers s))
      with (normalize
              (<["ACC" := VInt (mask32 (Z.land a (mask32 (Z.lnot (mask32 v)))))]>
                 (registers s))).
    rewrite normalize_insert, (normalize_id _ Hm). cbn [to_int].
    rewrite mask32_idem, (mask32_small v Hrv), (mask32_lnot v Hrv).
    rewrite (mask32_land a _ Hra). reflexivity.
  - apply_binary Hm Ha He.
    rewrite (mask32_small v Hrv), mask32_idem, (mask32_lnot v Hrv).
    apply mask32_lor; assumption.
  - apply_binary Hm Ha He.
    rewrite (mask32_small v Hrv), mask32_idem, (mask32_lnot v Hrv).
    apply mask32_lxor; assumption.
Qed.

Lemma acc12_facts :
  reachable acc12
  /\ registers acc12 !! "ACC" = Some (VInt 12)
  /\ fst (evaluate_expression "10" acc12) = Returned 10.
Proof.
  split; [apply reachable_after_turns, reachable_start|].
  split; vm_compute; reflexivity.
Qed.

Lemma bitwise_instructions_witness :
  assigns_acc (BinaryCommand AndCommand "10") acc12 8
  /\ assigns_acc (BinaryCommand XorCommand "10") acc12 6
  /\ assigns_acc (AndnCommand "10") acc12 4.
Proof.
  destruct acc12_facts as (Hr & Ha & He).
  destruct (bitwise_instructions acc12 "10" 12 10 Hr Ha He)
    as (Hand & _ & Hxor & Handn & _).
  split; [exact Hand|]. split; [exact Hxor|exact Handn].
Defined.

(** X2: in a state a run passes through, with ACC = a and an operand that
    evaluates to v, SUB and MUL assign (a - v) mod 2^32 and (a * v) mod 2^32
    to ACC, and for v <> 0 DIV and MOD assign the floor quotient and the
    remainder, which need no wrapping; nothing else changes. *)
Theorem arithmetic_instructions s e a v :
  reachable s ->
  registers s !! "ACC" = Some (VInt a) ->
  fst (evaluate_expression e s) = Returned v ->
  assigns_acc (BinaryCommand SubCommand e) s ((a - v) mod 2 ^ 32)
  /\ assigns_acc (BinaryCommand MulCommand e) s ((a * v) mod 2 ^ 32)
  /\ (v <> 0 ->
      assigns_acc (BinaryCommand DivCommand e) s (a / v)
      /\ assigns_acc (BinaryCommand ModCommand e) s (a mod v)
      /\ a / v <= a /\ a mod v < v).
Proof.
  intros Hr Ha He. apply evaluate_expression_fst in He.
  destruct (reachable_registers s Hr) as [Hm _].
  destruct (Hm _ _ Ha) as (a' & [= <-] & Hra).
  destruct (evaluate_expression_total e s) as (w & Hw & Hrv).
  assert (w = v) as -> by congruence.
  split; [|split].
  - apply_binary Hm Ha He.
    rewrite (mask32_small v Hrv), mask32_idem. apply mask32_mod.
  - apply_binary Hm Ha He.
    rewrite (mask32_small v Hrv). apply mask32_mod.
  - intros Hv.
    assert (Hq : 0 <= a / v <= a).
    { split; [apply Z.div_pos; lia|].
      apply Z.div_le_upper_bound; [lia|]. nia. }
    pose proof (Z.mod_pos_bound a v ltac:(lia)) as Hmod.
    split; [|split; [|split; lia]].
    + eapply (binary_assigns _ _ _ _ _ _ _ Hm Ha He).
      * unfold apply_operation. unfold_calls.
        rewrite Ha, (mask32_small v Hrv).
        destruct (Z.eqb_spec v 0) as [E|_]; [contradiction|reflexivity].
      * cbn [to_int]. apply mask32_small. lia.
    + eapply (binary_assigns _ _ _ _ _ _ _ Hm Ha He).
      * unfold apply_operation. unfold_calls.
        rewrite Ha, (mask32_small v Hrv).
        destruct (Z.eqb_spec v 0) as [E|_]; [contradiction|reflexivity].
      * cbn [to_int]. apply mask32_small. lia.
Qed.

Lemma arithmetic_instructions_witness :
  assigns_acc (BinaryCommand SubCommand "10") acc12 2
  /\ assigns_acc (BinaryCommand DivCommand "10") acc12 1
  /\ assigns_acc (BinaryCommand ModCommand "10") acc12 2.
Proof.
  destruct acc12_facts as (Hr & Ha & He).
  destruct (arithmetic_instructions acc12 "10" 12 10 Hr Ha He)
    as (Hsub & _ & Hdiv).
  destruct (Hdiv ltac:(lia)) as (Hd & Hm & _).
  split; [exact Hsub|]. split; [exact Hd|exact Hm].
Defined.

Ltac registers_goal :=
  unfold set_registers;
  cbn [registers program program_counter labels];
  do 2 f_equal;
  match goal with
  | |- ?f <$> <[?k := ?x]> ?m = _ =>
      change (f <$> <[k := x]> m) with (normalize (<[k := x]> m))
  end.

(** X3: in a state a run passes through, LD e assigns the value of e to ACC
    and changes nothing else; ST variable assigns ACC to the variable and
    changes nothing else, so ST ACC changes nothing. *)
Theorem load_store_instructions s e variable a v :
  reachable s ->
  registers s !! "ACC" = Some (VInt a) ->
  fst (evaluate_expression e s) = Returned v ->
  execute (LoadCommand e) s
  = (Returned tt, set_registers (<["ACC" := VInt v]> (registers s)) s)
  /\ execute (StoreCommand variable) s
     = (Returned tt, set_registers (<[variable := VInt a]> (registers s)) s)
  /\ execute (StoreCommand "ACC") s = (Returned tt, s).
Proof.
  intros Hr Ha He. apply evaluate_expression_fst in He.
  destruct (reachable_registers s Hr) as [Hm _].
  destruct (Hm _ _ Ha) as (a' & [= <-] & Hra).
  destruct (evaluate_expression_total e s) as (w & Hw & Hrv).
  assert (w = v) as -> by congruence.
  assert (Hst : forall x, execute (StoreCommand x) s
            = (Returned tt, set_registers (<[x := VInt a]> (registers s)) s)).
  { intros x. unfold execute. unfold_calls. rewrite Ha.
    registers_goal.
    rewrite normalize_insert, (normalize_id _ Hm). cbn [to_int].
    rewrite (mask32_small a Hra). reflexivity. }
  split; [|split; [apply Hst|]].
  - unfold execute. unfold_calls. rewrite He.
    registers_goal.
    rewrite normalize_insert, (normalize_id _ Hm). cbn [to_int].
    rewrite mask32_idem, (mask32_small v Hrv). reflexivity.
  - rewrite Hst, (insert_id _ _ _ Ha), set_registers_id. reflexivity.
Qed.

Lemma load_store_instructions_witness :
  execute (LoadCommand "10") acc12
  = (Returned tt, set_registers (<["ACC" := VInt 10]> (registers acc12)) acc12)
  /\ execute (StoreCommand "A") acc12
     = (Returned tt, set_registers (<["A" := VInt 12]> (registers acc12)) acc12).
Proof.
  destruct acc12_facts as (Hr & Ha & He).
  destruct (load_store_instructions acc12 "10" "A" 12 10 Hr Ha He)
    as (Hl & Hs & _).
  split; [exact Hl|exact Hs].
Defined.

(** X4: in a state a run passes through with ACC not zero, S sets the
    variable to 1 and R sets it to 0 (the [True] and [False] they store are
    turned into integers by [debug_registers]); nothing else changes. *)
Theorem set_reset_when_acc_truthy s variable a :
  reachable s ->
  registers s !! "ACC" = Some (VInt a) ->
  a <> 0 ->
  execute (ConditionalCommand SCommand variable) s
  = (Returned tt, set_registers (<[variable := VInt 1]> (registers s)) s)
  /\ execute (ConditionalCommand RCommand variable) s
     = (Returned tt, set_registers (<[variable := VInt 0]> (registers s)) s).
Proof.
  intros Hr Ha Hnz.
  destruct (reachable_registers s Hr) as [Hm _].
  assert (Ht : truthy (VInt a) = true).
  { simpl. destruct (Z.eqb_spec a 0); [contradiction|reflexivity]. }
  split; unfold execute; unfold_calls; rewrite Ha, Ht;
    registers_goal;
    rewrite normalize_insert, (normalize_id _ Hm); reflexivity.
Qed.

Lemma set_reset_when_acc_truthy_witness :
  execute (ConditionalCommand SCommand "X") acc12
  = (Returned tt, set_registers (<["X" := VInt 1]> (registers acc12)) acc12)
  /\ execute (ConditionalCommand RCommand "ACC") acc12
     = (Returned tt, set_registers (<["ACC" := VInt 0]> (registers acc12)) acc12).
Proof.
  destruct acc12_facts as (Hr & Ha & _).
  split.
  - apply (set_reset_when_acc_truthy acc12 "X" 12 Hr Ha). lia.
  - apply (set_reset_when_acc_truthy acc12 "ACC" 12 Hr Ha). lia.
Defined.

(** ** How an instruction can fail *)

Lemma execute_fails c s x s' :
  is_Some (registers s !! "ACC") ->
  execute c s = (Raised x, s') ->
  ((x = ZeroDivisionError
       /\ exists k e,
            c = BinaryCommand k e
            /\ (k = DivCommand \/ k = ModCommand)
            /\ fst (evaluate_expression e s) = Returned 0)
      \/ (exists l,
            x = KeyError l /\ labels s !! l = None
            /\ (c = JmpCommand l \/ c = JmpcCommand l \/ c = JmpncCommand l))).
Proof.
  intros [acc Ha] Hex.
  destruct c as [e|var|k e|e| |k var|l|l|l].
  - destruct (evaluate_expression_total e s) as (v & Hv & Hr).
    destruct (execute_load s e v Hv Hr) as (s1 & E & _). congruence.
  - destruct (execute_store s var acc Ha) as (s1 & E & _). congruence.
  - destruct (evaluate_expression_total e s) as (v & Hv & Hr).
    assert (Hdm : k = DivCommand \/ k = ModCommand
                  \/ (k <> DivCommand /\ k <> ModCommand))
      by (destruct k; auto; right; right; split; discriminate).
    destruct Hdm as [Hk | [Hk | [Hd Hm]]].
    3: { destruct (execute_binary_total k e s (ex_intro _ acc Ha) Hd Hm)
           as (s1 & E). congruence. }
    all: destruct (Z.eqb_spec v 0) as [Hz | Hnz].
    1, 3: left; subst v; revert Hex;
      unfold execute, debug_decorator; unfold bind at 1; unfold bind at 1;
      rewrite Hv; unfold bind at 1; subst k;
      unfold apply_operation; unfold_calls; rewrite Ha;
      change (mask32 0 =? 0) with true; cbn iota; intros [= <-];
      split; [reflexivity|]; eexists _, _; split; [reflexivity|];
      split; [auto|]; rewrite Hv; reflexivity.
    all: exfalso; revert Hex;
      unfold execute, debug_decorator; unfold bind at 1; unfold bind at 1;
      rewrite Hv; unfold bind at 1; subst k;
      unfold apply_operation; unfold_calls; rewrite Ha;
      rewrite (mask32_small v Hr);
      destruct (Z.eqb_spec v 0); [contradiction|];
      cbn [registers set_registers]; rewrite lookup_insert_eq;
      discriminate.
  - exfalso. revert Hex. unfold execute. unfold_calls.
    destruct (evaluate_expression_total e s) as (v & Hv & _).
    rewrite Hv, Ha. discriminate.
  - destruct (execute_not s acc Ha) as (s1 & E & _). congruence.
  - exfalso. revert Hex. unfold execute. unfold_calls. rewrite Ha.
    destruct (truthy acc); [destruct k|]; discriminate.
  - right. revert Hex. unfold execute. unfold_calls.
    destruct (labels s !! l) eqn:El; [discriminate|].
    intros [= <-]. exists l. auto.
  - right. revert Hex. unfold execute. unfold_calls. rewrite Ha.
    destruct (truthy acc); [|discriminate].
    destruct (labels s !! l) eqn:El; [discriminate|].
    intros [= <-]. exists l. auto.
  - right. revert Hex. unfold execute. unfold_calls. rewrite Ha.
    destruct (truthy acc); cbn [negb]; [discriminate|].
    destruct (labels s !! l) eqn:El; [discriminate|].
    intros [= <-]. exists l. auto.
Qed.

(** X5: with ACC present, an instruction that raises leaves the interpreter
    as it was, and it is either DIV or MOD with an operand that evaluates to
    0, raising ZeroDivisionError, or a jump whose label is not in the label
    table, raising KeyError with that label. *)
Theorem execute_failure_cases c s x s' :
  is_Some (registers s !! "ACC") ->
  execute c s = (Raised x, s') ->
  s' = s
  /\ ((x = ZeroDivisionError
       /\ exists k e,
            c = BinaryCommand k e
            /\ (k = DivCommand \/ k = ModCommand)
            /\ fst (evaluate_expression e s) = Returned 0)
      \/ (exists l,
            x = KeyError l /\ labels s !! l = None
            /\ (c = JmpCommand l \/ c = JmpcCommand l \/ c = JmpncCommand l))).
Proof.
  intros Ha Hex. split.
  - eapply execute_raises_unchanged, Hex.
  - eapply execute_fails; eassumption.
Qed.

Lemma execute_failure_cases_witness :
  execute (JmpCommand "Nowhere") acc12 = (Raised (KeyError "Nowhere"), acc12)
  /\ labels acc12 !! "Nowhere" = None.
Proof.
  assert (Hex : execute (JmpCommand "Nowhere") acc12
                = (Raised (KeyError "Nowhere"), acc12))
    by (vm_compute; reflexivity).
  split; [exact Hex|].
  destruct (execute_failure_cases (JmpCommand "Nowhere") acc12 _ _
              (ex_intro _ (VInt 12) (proj1 (proj2 acc12_facts))) Hex)
    as [_ [[H _] | (l & Hx & Hl & _)]]; [discriminate|].
  injection Hx as <-. exact Hl.
Defined.

(** ** Jumps to a label that is not in the table *)

(** X6: a label is looked up only when the jump is taken: with the label
    absent from the table, JMP raises KeyError; JMPC raises it when ACC is
    truthy and otherwise returns; JMPNC raises it when ACC is falsy and
    otherwise returns. *)
Theorem jump_to_missing_label s label acc :
  labels s !! label = None ->
  registers s !! "ACC" = Some acc ->
  execute (JmpCommand label) s = (Raised (KeyError label), s)
  /\ execute (JmpcCommand label) s
     = (if truthy acc then (Raised (KeyError label), s)
        else (Returned tt, not_jumped s))
  /\ execute (JmpncCommand label) s
     = (if truthy acc then (Returned tt, not_jumped s)
        else (Raised (KeyError label), s)).
Proof.
  intros Hl Ha. unfold execute. unfold_calls. rewrite Hl, Ha.
  split; [reflexivity|].
  destruct (truthy acc); cbn [negb]; rewrite ?Hl; split; reflexivity.
Qed.

Lemma jump_to_missing_label_witness :
  execute (JmpcCommand "Nowhere") acc12 = (Raised (KeyError "Nowhere"), acc12)
  /\ execute (JmpncCommand "Nowhere") acc12 = (Returned tt, not_jumped acc12).
Proof.
  destruct (jump_to_missing_label acc12 "Nowhere" (VInt 12))
    as (_ & Hc & Hnc); [vm_compute; reflexivity ..|].
  split; [exact Hc|exact Hnc].
Defined.

(** ** What a run keeps *)

Lemma loop_body_frame s o s' :
  loop_body s = (o, s') -> program s' = program s /\ labels s' = labels s.
Proof.
  destruct o as [[]|x]; intros H.
  - destruct (loop_body_returns _ _ H) as (c & s1 & _ & Hex & ->).
    destruct (execute_returns _ _ _ Hex) as (_ & _ & Hp & Hl). auto.
  - apply loop_body_raises_unchanged in H as ->. auto.
Qed.

(** X7: however a run ends, normally or with an error, the program and the
    label table are those it started with. *)
Theorem run_keeps_program_and_labels fuel : forall s o s',
  run fuel s = Some (o, s') ->
  program s' = program s /\ labels s' = labels s.
Proof.
  induction fuel as [|fuel IH]; intros s o s'; simpl.
  - destruct (running s); [discriminate|]. intros [= <- <-]. auto.
  - destruct (running s); [|intros [= <- <-]; auto].
    destruct (loop_body s) as [[[]|x] s1] eqn:Hb.
    + intros H. apply IH in H as [-> ->]. eapply loop_body_frame, Hb.
    + intros [= <- <-]. eapply loop_body_frame, Hb.
Qed.

Lemma run_keeps_program_and_labels_witness :
  let s0 := snd (load_program control_flow_text init) in
  let s' := snd (default (Returned tt, s0) (run 6 s0)) in
  program s' = program s0 /\ labels s' = labels s0.
Proof.
  intros s0 s'.
  apply (run_keeps_program_and_labels 6 s0 (Returned tt) s').
  vm_compute. reflexivity.
Defined.

(** ** Labels and the program counter stay within the program *)

Lemma load_line_labels_in_range line s o s' :
  labels_in_range s -> load_line line s = (o, s') -> labels_in_range s'.
Proof.
  intros Hin. unfold load_line.
  assert (Hlab : forall name,
             labels_in_range
               (set_labels (<[name := Z.of_nat (length (program s))]>
                              (labels s)) s)).
  { intros name l i. simpl. destruct (decide (name = l)) as [->|Hne].
    - rewrite lookup_insert_eq. intros [= <-]. lia.
    - rewrite lookup_insert_ne by exact Hne. apply Hin. }
  assert (Happ : forall t c, labels_in_range t ->
             labels_in_range (set_program (program t ++ [c]) t)).
  { intros t c Ht l i. simpl. intros Hl. apply Ht in Hl.
    rewrite length_app. simpl. lia. }
  destruct (PyStr.split_colon line) as [[label rest]|].
  - destruct (PyStr.is_empty (PyStr.strip rest)); [intros [= <- <-]; apply Hlab|].
    destruct (parse _); intros [= <- <-]; [|apply Hlab].
    apply (Happ (set_labels _ s)), Hlab.
  - destruct (PyStr.is_empty line); [intros [= <- <-]; exact Hin|].
    destruct (parse _); intros [= <- <-]; [apply Happ|]; exact Hin.
Qed.

Lemma load_lines_labels_in_range lines : forall s o s',
  labels_in_range s -> load_lines lines s = (o, s') -> labels_in_range s'.
Proof.
  induction lines as [|line lines IH]; intros s o s' Hin; simpl.
  - intros [= <- <-]. exact Hin.
  - unfold bind. destruct (load_line line s) as [[[]|x] s1] eqn:E.
    + apply IH. eapply load_line_labels_in_range; eassumption.
    + intros [= <- <-]. eapply load_line_labels_in_range; eassumption.
Qed.

(** X8: after [load_program] on a fresh interpreter, whether it returned or
    raised, every label's index lies between 0 and the number of instructions
    loaded. *)
Theorem loaded_labels_in_range text o s0 l i :
  load_program text init = (o, s0) ->
  labels s0 !! l = Some i ->
  0 <= i <= Z.of_nat (length (program s0)).
Proof.
  intros Hload.
  apply (load_lines_labels_in_range (program_lines text) init o s0);
    [|exact Hload].
  intros l' i'. simpl. rewrite lookup_empty. discriminate.
Qed.

Lemma loaded_labels_in_range_witness :
  0 <= 4 <= Z.of_nat (length (program (snd (load_program control_flow_text init)))).
Proof.
  apply (loaded_labels_in_range control_flow_text (Returned tt) _ "Skip" 4);
    vm_compute; reflexivity.
Defined.

Lemma loaded_well_formed text s0 :
  load_program text init = (Returned tt, s0) -> well_formed s0.
Proof.
  intros H. destruct (reachable_registers _ (loaded_reachable _ _ H)) as [Hm Ha].
  split; [exact Hm|]. split; [exact Ha|].
  split.
  { apply (load_lines_labels_in_range (program_lines text) init (Returned tt) s0);
      [|exact H].
    intros l i. simpl. rewrite lookup_empty. discriminate. }
  destruct (load_lines_frame _ _ _ _ H) as [_ ->]. simpl. lia.
Qed.

Lemma getitem_in_range (p : list Command) i :
  0 <= i < Z.of_nat (length p) -> is_Some (getitem p i).
Proof.
  intros Hi. unfold getitem.
  destruct (Z.leb_spec 0 i); [|lia].
  apply lookup_lt_is_Some. lia.
Qed.

Lemma execute_program_counter c s s1 :
  execute c s = (Returned tt, s1) ->
  program_counter s1 = program_counter s
  \/ exists l i, labels s !! l = Some i /\ program_counter s1 = i - 1.
Proof.
  destruct c as [e|var|k e|e| |k var|l|l|l]; unfold execute.
  - unfold_calls. destruct (evaluate_expression_total e s) as (v & Hv & _).
    rewrite Hv. intros [= <-]. auto.
  - unfold_calls. destruct (registers s !! "ACC"); intros [= <-]. auto.
  - unfold debug_decorator. unfold bind at 1. unfold bind at 1.
    destruct (evaluate_expression_total e s) as (v & Hv & _). rewrite Hv.
    unfold bind at 1.
    destruct (apply_operation_cases k (mask32 v) s)
      as [(acc & z & Hacc & ->)|(y & ->)]; [|discriminate].
    unfold_calls. simpl. rewrite lookup_insert_eq. intros [= <-]. auto.
  - unfold_calls. destruct (evaluate_expression_total e s) as (v & Hv & _).
    rewrite Hv. destruct (registers s !! "ACC"); intros [= <-]. auto.
  - unfold_calls. destruct (registers s !! "ACC"); intros [= <-]. auto.
  - unfold_calls. destruct (registers s !! "ACC") as [acc|]; [|discriminate].
    destruct (truthy acc); [destruct k|]; intros [= <-]; auto.
  - unfold_calls. destruct (labels s !! l) as [i|] eqn:El; intros [= <-].
    right. exists l, i. auto.
  - unfold_calls. destruct (registers s !! "ACC") as [acc|]; [|discriminate].
    destruct (truthy acc); [|intros [= <-]; auto].
    destruct (labels s !! l) as [i|] eqn:El; intros [= <-].
    right. exists l, i. auto.
  - unfold_calls. destruct (registers s !! "ACC") as [acc|]; [|discriminate].
    destruct (truthy acc); cbn [negb]; [intros [= <-]; auto|].
    destruct (labels s !! l) as [i|] eqn:El; intros [= <-].
    right. exists l, i. auto.
Qed.

Lemma loop_body_well_formed s s' :
  well_formed s -> running s = true ->
  loop_body s = (Returned tt, s') -> well_formed s'.
Proof.
  intros (Hm & Ha & Hl & Hpc) Hrun Hb.
  destruct (loop_body_returns _ _ Hb) as (c & s1 & _ & Hex & ->).
  destruct (execute_returns _ _ _ Hex) as (Hm1 & Hk & Hp & Hlab).
  unfold running in Hrun. apply Z.ltb_lt in Hrun.
  split; [exact Hm1|]. split; [apply Hk, Ha|].
  split.
  - intros l i. simpl. rewrite Hlab, Hp. apply Hl.
  - simpl. rewrite Hp.
    destruct (execute_program_counter _ _ _ Hex) as [-> | (l & i & Hi & ->)].
    + lia.
    + apply Hl in Hi. lia.
Qed.

Lemma turns_well_formed n : forall s s',
  well_formed s -> turns n s = Some s' -> well_formed s'.
Proof.
  induction n as [|n IH]; intros s s' Hw; simpl.
  - intros [= <-]. exact Hw.
  - destruct (running s) eqn:Hrun; [|discriminate].
    destruct (loop_body s) as [[[]|x] s1] eqn:Hb; [|discriminate].
    apply IH. eapply loop_body_well_formed; eassumption.
Qed.

(** X9: in a run of a program loaded on a fresh interpreter, the program
    counter stays between 0 and the number of instructions, and whenever the
    loop goes on the fetch finds the instruction at that index (no IndexError,
    no indexing from the end). *)
Theorem program_counter_in_range text s0 n s :
  load_program text init = (Returned tt, s0) ->
  turns n s0 = Some s ->
  0 <= program_counter s <= Z.of_nat (length (program s))
  /\ (running s = true ->
      exists c, getitem (program s) (program_counter s) = Some c
                /\ program s !! Z.to_nat (program_counter s) = Some c).
Proof.
  intros Hload Ht.
  destruct (turns_well_formed n s0 s (loaded_well_formed _ _ Hload) Ht)
    as (_ & _ & _ & Hpc).
  split; [exact Hpc|].
  intros Hrun. unfold running in Hrun. apply Z.ltb_lt in Hrun.
  destruct (getitem_in_range (program s) (program_counter s) ltac:(lia))
    as [c Hc].
  exists c. split; [exact Hc|].
  unfold getitem in Hc. destruct (Z.leb_spec 0 (program_counter s)); [|lia].
  exact Hc.
Qed.

Lemma program_counter_in_range_witness :
  let s := after_turns 2 (snd (load_program control_flow_text init)) in
  0 <= program_counter s <= Z.of_nat (length (program s)).
Proof.
  intros s.
  apply (program_counter_in_range control_flow_text
           (snd (load_program control_flow_text init)) 2 s);
    vm_compute; reflexivity.
Defined.

(** X10: a run of a program loaded on a fresh interpreter can fail in two
    ways only: ZeroDivisionError, or KeyError for a label that is not in the
    label table. *)
Theorem run_failures text s0 fuel x s' :
  load_program text init = (Returned tt, s0) ->
  run fuel s0 = Some (Raised x, s') ->
  x = ZeroDivisionError
  \/ exists l, x = KeyError l /\ labels s0 !! l = None.
Proof.
  intros Hload.
  pose proof (loaded_well_formed _ _ Hload) as Hw.
  clear Hload. revert s0 Hw.
  induction fuel as [|fuel IH]; intros s0 Hw; simpl.
  - destruct (running s0); discriminate.
  - destruct (running s0) eqn:Hrun; [|discriminate].
    destruct (loop_body s0) as [[[]|y] s1] eqn:Hb.
    + intros H.
      destruct (loop_body_frame _ _ _ Hb) as [_ Hl].
      rewrite <- Hl. apply IH; [|exact H].
      eapply loop_body_well_formed; eassumption.
    + intros [= -> <-].
      destruct Hw as (_ & Ha & _ & Hpc).
      unfold running in Hrun. apply Z.ltb_lt in Hrun.
      destruct (getitem_in_range (program s0) (program_counter s0) ltac:(lia))
        as [c Hc].
      revert Hb. unfold loop_body. rewrite Hc. unfold bind.
      destruct (execute c s0) as [[[]|z] s2] eqn:Hex; [discriminate|].
      intros [= -> ->].
      destruct (execute_fails c s0 x s1 Ha Hex)
        as [[-> _] | (l & -> & Hl & _)]; eauto.
Qed.

Lemma run_failures_witness :
  let s0 := snd (load_program div_zero_text init) in
  run 3 s0 = Some (Raised ZeroDivisionError, after_turns 1 s0).
Proof.
  intros s0.
  assert (H : run 3 s0 = Some (Raised ZeroDivisionError, after_turns 1 s0))
    by (vm_compute; reflexivity).
  destruct (run_failures div_zero_text s0 3 _ _ eq_refl H) as [_ | (l & E & _)];
    [exact H|discriminate].
Defined.

(** ** Termination *)

Lemma execute_no_jump c s o s1 :
  is_jump c = false -> execute c s = (o, s1) ->
  program_counter s1 = program_counter s.
Proof.
  intros Hj Hex. destruct o as [[]|x].
  - destruct (execute_program_counter _ _ _ Hex) as [H|(l & i & _ & _)];
      [exact H|].
    revert Hex.
    destruct c as [e|var|k e|e| |k var|l'|l'|l']; try discriminate;
      unfold execute.
    + unfold_calls. destruct (evaluate_expression_total e s) as (v & Hv & _).
      rewrite Hv. intros [= <-]. reflexivity.
    + unfold_calls. destruct (registers s !! "ACC"); intros [= <-]. reflexivity.
    + unfold debug_decorator. unfold bind at 1. unfold bind at 1.
      destruct (evaluate_expression_total e s) as (v & Hv & _). rewrite Hv.
      unfold bind at 1.
      destruct (apply_operation_cases k (mask32 v) s)
        as [(acc & z & Hacc & ->)|(y & ->)]; [|discriminate].
      unfold_calls. simpl. rewrite lookup_insert_eq. intros [= <-]. reflexivity.
    + unfold_calls. destruct (evaluate_expression_total e s) as (v & Hv & _).
      rewrite Hv. destruct (registers s !! "ACC"); intros [= <-]. reflexivity.
    + unfold_calls. destruct (registers s !! "ACC"); intros [= <-]. reflexivity.
    + unfold_calls. destruct (registers s !! "ACC") as [acc|]; [|discriminate].
      destruct (truthy acc); [destruct k|]; intros [= <-]; reflexivity.
  - apply execute_raises_unchanged in Hex as ->. reflexivity.
Qed.

Lemma getitem_forallb (P : Command -> bool) (p : list Command) i c :
  List.forallb P p = true -> 0 <= i -> getitem p i = Some c -> P c = true.
Proof.
  intros Hall Hi Hg. unfold getitem in Hg.
  destruct (Z.leb_spec 0 i); [|lia].
  rewrite List.forallb_forall in Hall. apply Hall.
  apply list_elem_of_In. eapply list_elem_of_lookup_2, Hg.
Qed.

(** X11: a program without jumps ends, normally or with an error, within
    as many turns of the loop as instructions are left; when it ends normally
    the program counter equals the number of instructions. *)
Theorem straight_line_run_terminates fuel : forall s,
  List.forallb (fun c => negb (is_jump c)) (program s) = true ->
  0 <= program_counter s <= Z.of_nat (length (program s)) ->
  (Z.of_nat (length (program s)) - program_counter s <= Z.of_nat fuel) ->
  exists o s',
    run fuel s = Some (o, s')
    /\ (o = Returned tt ->
        program_counter s' = Z.of_nat (length (program s))).
Proof.
  induction fuel as [|fuel IH]; intros s Hall Hpc Hfuel.
  - exists (Returned tt), s. simpl.
    assert (Hrun : running s = false) by (unfold running; apply Z.ltb_ge; lia).
    rewrite Hrun. split; [reflexivity|]. intros _. lia.
  - simpl. destruct (running s) eqn:Hrun.
    + unfold running in Hrun. apply Z.ltb_lt in Hrun.
      destruct (getitem_in_range (program s) (program_counter s) ltac:(lia))
        as [c Hc].
      assert (Hj : is_jump c = false).
      { apply negb_true_iff.
        apply (getitem_forallb (fun c => negb (is_jump c)) _ _ _ Hall
                 (proj1 Hpc) Hc). }
      unfold loop_body. rewrite Hc. unfold bind.
      destruct (execute c s) as [[[]|x] s1] eqn:Hex.
      * pose proof (execute_no_jump _ _ _ _ Hj Hex) as Hpc1.
        destruct (execute_returns _ _ _ Hex) as (_ & _ & Hp & _).
        destruct (IH (set_program_counter (program_counter s1 + 1) s1))
          as (o & s' & Hr & Hend).
        { simpl. rewrite Hp. exact Hall. }
        { simpl. rewrite Hp, Hpc1. lia. }
        { simpl. rewrite Hp, Hpc1. lia. }
        exists o, s'. split; [exact Hr|].
        intros Ho. simpl in Hend. rewrite Hp in Hend. apply Hend, Ho.
      * exists (Raised x), s1. split; [reflexivity|discriminate].
    + exists (Returned tt), s. split; [reflexivity|].
      unfold running in Hrun. apply Z.ltb_ge in Hrun. intros _. lia.
Qed.

Lemma straight_line_run_terminates_witness :
  let s0 := snd (load_program add_text init) in
  exists o s', run 3 s0 = Some (o, s').
Proof.
  intros s0.
  destruct (straight_line_run_terminates 3 s0) as (o & s' & Hr & _);
    [vm_compute; reflexivity | vm_compute; split; discriminate
     | vm_compute; discriminate |].
  exists o, s'. exact Hr.
Defined.

(** X12: when the instruction at the program counter is a JMP to a label
    whose index is that same program counter, the run has not ended after any
    number of turns. *)
Theorem jump_to_itself_never_ends fuel : forall s label,
  running s = true ->
  getitem (program s) (program_counter s) = Some (JmpCommand label) ->
  labels s !! label = Some (program_counter s) ->
  run fuel s = None.
Proof.
  induction fuel as [|fuel IH]; intros s label Hrun Hg Hl; simpl; rewrite Hrun.
  - reflexivity.
  - rewrite (loop_body_execute s _ _ Hg (execute_jmp _ _ _ Hl)).
    apply (IH _ label).
    + unfold running in *. simpl.
      replace (program_counter s - 1 + 1) with (program_counter s) by lia.
      exact Hrun.
    + simpl. replace (program_counter s - 1 + 1) with (program_counter s) by lia.
      exact Hg.
    + simpl. rewrite Hl. f_equal. lia.
Qed.

Lemma jump_to_itself_never_ends_witness :
  run 1000 (snd (load_program spin_text init)) = None.
Proof.
  change 1000%nat with (1 + 999)%nat.
  rewrite (run_turns 1 (snd (load_program spin_text init))
             (after_turns 1 (snd (load_program spin_text init))) 999);
    [|vm_compute; reflexivity].
  apply (jump_to_itself_never_ends 999 _ "Spin"); vm_compute; reflexivity.
Defined.

(** ** The parser *)

Lemma lookup_command_nullary m c :
  lookup_command m = Some (Nullary c) -> m = "NOT" /\ c = NotCommand.
Proof.
  unfold lookup_command, command_map. cbn [List.find fst snd].
  repeat match goal with
         | |- context [String.eqb ?k m] =>
             destruct (String.eqb_spec k m) as [<-|_];
             [intros [= <-] || discriminate; auto|]
         end.
  discriminate.
Qed.

(** X13: [parse] returns a command exactly when the line's tokens are NOT
    alone, or a mnemonic of the table other than NOT followed by one operand;
    the command is the mnemonic's class applied to the operand. *)
Theorem parse_returns_iff line c :
  parse line = Returned c
  <-> (PyStr.split line = ["NOT"] /\ c = NotCommand)
      \/ (exists m a f,
             PyStr.split line = [m; a]
             /\ lookup_command m = Some (Unary f) /\ c = f a).
Proof.
  unfold parse. split.
  - destruct (PyStr.split line) as [|m args]; [discriminate|].
    destruct (lookup_command m) as [[f|c0]|] eqn:El; [| |discriminate].
    + destruct args as [|a [|b args]]; try discriminate.
      intros [= <-]. right. exists m, a, f. auto.
    + destruct args as [|a args]; [|discriminate].
      intros [= <-]. apply lookup_command_nullary in El as [-> ->]. auto.
  - intros [[-> ->] | (m & a & f & -> & -> & ->)]; reflexivity.
Qed.

(** X14: a line without tokens makes [parse] raise IndexError; an unknown
    mnemonic raises the ValueError naming it, whatever follows; a known
    mnemonic with a wrong number of operands (any for NOT, none or several
    for the others) raises TypeError. *)
Theorem parse_errors line :
  (PyStr.split line = [] -> parse line = Raised IndexError)
  /\ (forall m args,
        PyStr.split line = m :: args ->
        (lookup_command m = None ->
         parse line = Raised (ValueError ("Unknown instruction " +:+ m)))
        /\ (is_Some (lookup_command m) ->
            (m = "NOT" /\ args <> [] \/ m <> "NOT" /\ length args <> 1%nat) ->
            parse line = Raised TypeError)).
Proof.
  unfold parse. split; [intros ->; reflexivity|].
  intros m args ->. split; [intros ->; reflexivity|].
  intros [[f|c] El] Hargs; rewrite El.
  - destruct Hargs as [[-> _] | [_ Hlen]]; [discriminate El|].
    destruct args as [|a [|b args]]; simpl in *; congruence.
  - apply lookup_command_nullary in El as [-> ->].
    destruct Hargs as [[_ Hne] | [Hne _]]; [|congruence].
    destruct args; [congruence|reflexivity].
Qed.

Lemma parse_errors_witness :
  parse "NOT 5" = Raised TypeError
  /\ parse "LD" = Raised TypeError
  /\ parse "ADD 1 2" = Raised TypeError
  /\ parse "ld 5" = Raised (ValueError "Unknown instruction ld").
Proof.
  destruct (parse_errors "NOT 5") as [_ H1].
  destruct (parse_errors "LD") as [_ H2].
  destruct (parse_errors "ADD 1 2") as [_ H3].
  destruct (parse_errors "ld 5") as [_ H4].
  split; [|split; [|split]].
  - apply (H1 "NOT" ["5"]); [reflexivity|eexists; reflexivity|].
    left. split; [reflexivity|discriminate].
  - apply (H2 "LD" []); [reflexivity|eexists; reflexivity|].
    right. split; discriminate.
  - apply (H3 "ADD" ["1"; "2"]); [reflexivity|eexists; reflexivity|].
    right. split; discriminate.
  - apply (H4 "ld" ["5"]); reflexivity.
Defined.

(** ** Writing a program out and loading it back *)

Lemma forallb_app p a b :
  PyStr.forallb p (a +:+ b) = PyStr.forallb p a && PyStr.forallb p b.
Proof.
  induction a as [|c a IH]; [reflexivity|].
  change (String c a +:+ b) with (String c (a +:+ b)).
  cbn [PyStr.forallb]. rewrite IH, andb_assoc. reflexivity.
Qed.

Lemma append_assoc' a b c : (a +:+ b) +:+ c = a +:+ (b +:+ c).
Proof.
  induction a as [|x a IH]; [reflexivity|].
  change (String x ((a +:+ b) +:+ c) = String x (a +:+ (b +:+ c))).
  f_equal. exact IH.
Qed.

Lemma is_empty_app a b :
  PyStr.is_empty (a +:+ b) = PyStr.is_empty a && PyStr.is_empty b.
Proof. destruct a; reflexivity. Qed.

Lemma rstrip_app a e :
  PyStr.is_empty e = false ->
  PyStr.forallb (fun c => negb (PyStr.isspace c)) e = true ->
  PyStr.rstrip (a +:+ e) = a +:+ e.
Proof.
  intros Hne Hsp. induction a as [|c a IH].
  - apply rstrip_no_space, Hsp.
  - change (String c a +:+ e) with (String c (a +:+ e)).
    cbn [PyStr.rstrip]. rewrite IH, is_empty_app, Hne, !andb_false_r.
    reflexivity.
Qed.

Lemma lstrip_plain e : plain e = true -> PyStr.lstrip e = e.
Proof.
  intros Hp. destruct (plain_parts e Hp) as (Hne & Hsp & _).
  destruct e as [|c e]; [reflexivity|].
  cbn [PyStr.forallb] in Hsp. apply andb_prop in Hsp as [Hc _].
  apply negb_true_iff in Hc. cbn [PyStr.lstrip]. rewrite Hc. reflexivity.
Qed.

(** A line made of two plain tokens and a blank. *)
Lemma two_tokens m a :
  plain m = true -> plain a = true ->
  PyStr.split (m +:+ " " +:+ a) = [m; a]
  /\ PyStr.split_colon (m +:+ " " +:+ a) = None
  /\ PyStr.strip (m +:+ " " +:+ a) = m +:+ " " +:+ a
  /\ PyStr.is_empty (m +:+ " " +:+ a) = false
  /\ PyStr.forallb (fun c => negb (PyStr.code c =? 10)) (m +:+ " " +:+ a)
     = true.
Proof.
  intros Hm Ha.
  destruct (plain_parts m Hm) as (Hmne & Hmsp & Hmco & Hmnl).
  destruct (plain_parts a Ha) as (Hane & Hasp & Haco & Hanl).
  split; [|split; [|split; [|split]]].
  - unfold PyStr.split.
    change (m +:+ " " +:+ a) with (m +:+ String " " a).
    rewrite split_at_app; [|exact Hmsp|reflexivity].
    rewrite (split_at_none _ a Hasp).
    cbn [List.filter]. rewrite Hmne, Hane. reflexivity.
  - apply split_colon_none. rewrite !forallb_app, Hmco, Haco. reflexivity.
  - unfold PyStr.strip.
    assert (Hl : PyStr.lstrip (m +:+ " " +:+ a) = m +:+ " " +:+ a).
    { destruct m as [|c m]; [discriminate|].
      cbn [PyStr.forallb] in Hmsp. apply andb_prop in Hmsp as [Hc _].
      apply negb_true_iff in Hc.
      change (String c m +:+ " " +:+ a) with (String c (m +:+ " " +:+ a)).
      cbn [PyStr.lstrip]. rewrite Hc. reflexivity. }
    rewrite Hl.
    change (m +:+ " " +:+ a) with (m +:+ (" " +:+ a)).
    rewrite <- append_assoc'.
    apply rstrip_app; assumption.
  - rewrite is_empty_app, Hmne. reflexivity.
  - rewrite !forallb_app, Hmnl, Hanl. reflexivity.
Qed.

Lemma text_of_facts c :
  plain_operand c = true ->
  parse (text_of c) = Returned c
  /\ PyStr.split_colon (text_of c) = None
  /\ PyStr.strip (text_of c) = text_of c
  /\ PyStr.is_empty (text_of c) = false
  /\ PyStr.forallb (fun x => negb (PyStr.code x =? 10)) (text_of c) = true.
Proof.
  unfold plain_operand, text_of.
  destruct (operand_of c) as [a|] eqn:Eo.
  - intros Ha.
    assert (Hm : plain (mnemonic_of c) = true)
      by (destruct c as [| |[]| | |[]| | |]; reflexivity).
    destruct (two_tokens _ _ Hm Ha) as (Hs & Hc & Hst & Hne & Hnl).
    split; [|auto].
    unfold parse. rewrite Hs.
    destruct c as [e|v|k e|e| |k v|l|l|l]; try destruct k;
      simpl in Eo; injection Eo as <- || discriminate Eo; reflexivity.
  - intros _. destruct c; try discriminate. repeat split; reflexivity.
Qed.

(** X15: every command whose operand is a plain token is what [parse]
    returns for the line made of its mnemonic, a blank and its operand. *)
Theorem parse_text_of c :
  plain_operand c = true -> parse (text_of c) = Returned c.
Proof.
  unfold plain_operand, text_of.
  destruct (operand_of c) as [a|] eqn:Eo.
  - intros Ha.
    assert (Hm : plain (mnemonic_of c) = true)
      by (destruct c as [| |[]| | |[]| | |]; reflexivity).
    destruct (two_tokens _ _ Hm Ha) as (Hs & _).
    unfold parse. rewrite Hs.
    destruct c as [e|v|k e|e| |k v|l|l|l]; try destruct k;
      simpl in Eo; injection Eo as <- || discriminate Eo; reflexivity.
  - intros _. destruct c; try discriminate. reflexivity.
Qed.

Lemma parse_text_of_witness :
  parse "XORN 16#FF" = Returned (BinaryCommand XornCommand "16#FF").
Proof.
  apply (parse_text_of (BinaryCommand XornCommand "16#FF")). reflexivity.
Defined.

Lemma load_line_text_of c s :
  plain_operand c = true ->
  load_line (text_of c) s
  = (Returned tt, set_program (program s ++ [c]) s).
Proof.
  intros H. destruct (text_of_facts c H) as (Hp & Hc & _ & Hne & _).
  unfold load_line. rewrite Hc, Hne, Hp. reflexivity.
Qed.

Lemma program_lines_program_text cs :
  List.forallb plain_operand cs = true ->
  program_lines (program_text cs) = List.map text_of cs.
Proof.
  induction cs as [|c cs IH]; [reflexivity|].
  cbn [List.forallb]. intros H. apply andb_prop in H as [Hc Hcs].
  destruct (text_of_facts c Hc) as (_ & _ & Hst & Hne & Hnl).
  cbn [program_text List.map].
  change (text_of c +:+ LF +:+ program_text cs)
    with (text_of c +:+ String (ascii_of_nat 10) (program_text cs)).
  unfold program_lines, PyStr.split_lines in *.
  rewrite split_at_app; [|exact Hnl|reflexivity].
  cbn [List.filter]. rewrite Hst, Hne. cbn [negb List.map].
  rewrite Hst, (IH Hcs). reflexivity.
Qed.

Lemma load_lines_text_of cs : forall s,
  List.forallb plain_operand cs = true ->
  load_lines (List.map text_of cs) s
  = (Returned tt, set_program (program s ++ cs) s).
Proof.
  induction cs as [|c cs IH]; intros s.
  - intros _. simpl. unfold ret. rewrite app_nil_r.
    destruct s; reflexivity.
  - cbn [List.forallb List.map load_lines]. intros H.
    apply andb_prop in H as [Hc Hcs].
    unfold bind. rewrite (load_line_text_of c s Hc), (IH _ Hcs).
    simpl. rewrite <- app_assoc. reflexivity.
Qed.

(** X16: writing a list of commands with plain operands one per line and
    loading that text appends exactly those commands to the program, in
    order, and changes nothing else. *)
Theorem load_program_text cs s :
  List.forallb plain_operand cs = true ->
  load_program (program_text cs) s
  = (Returned tt, set_program (program s ++ cs) s).
Proof.
  intros H. unfold load_program.
  rewrite (program_lines_program_text cs H). apply load_lines_text_of, H.
Qed.

Lemma load_program_text_witness :
  load_program (program_text wrap_program) init
  = (Returned tt, start wrap_program ∅).
Proof.
  apply (load_program_text wrap_program init). reflexivity.
Defined.

(** ** Loading a text in two halves *)

Lemma split_at_nonempty p s : PyStr.split_at p s <> [].
Proof.
  destruct s as [|c s]; [discriminate|]. cbn [PyStr.split_at].
  destruct (p c); [discriminate|].
  destruct (PyStr.split_at p s); discriminate.
Qed.

Lemma split_at_concat p a c b :
  p c = true ->
  PyStr.split_at p (a +:+ String c b)
  = (PyStr.split_at p a ++ PyStr.split_at p b)%list.
Proof.
  intros Hc. induction a as [|x a IH].
  - change ("" +:+ String c b) with (String c b).
    cbn [PyStr.split_at]. rewrite Hc. reflexivity.
  - change (String x a +:+ String c b) with (String x (a +:+ String c b)).
    cbn [PyStr.split_at]. rewrite IH.
    destruct (p x); [reflexivity|].
    pose proof (split_at_nonempty p a) as Hne.
    destruct (PyStr.split_at p a) as [|h t]; [congruence|reflexivity].
Qed.

Lemma program_lines_concat a b :
  program_lines (a +:+ LF +:+ b) = (program_lines a ++ program_lines b)%list.
Proof.
  unfold program_lines, PyStr.split_lines.
  change (a +:+ LF +:+ b) with (a +:+ String (ascii_of_nat 10) b).
  rewrite split_at_concat by reflexivity.
  rewrite List.filter_app, List.map_app. reflexivity.
Qed.

(** X17: loading two texts joined by a line feed is loading the first
    and then, if that returned, the second on the same interpreter. *)
Theorem load_program_concat a b s :
  load_program (a +:+ LF +:+ b) s = (load_program a;; load_program b) s.
Proof.
  unfold load_program. rewrite program_lines_concat. apply load_lines_app.
Qed.

Lemma load_program_concat_witness :
  load_program add_text init
  = (load_program "LD 16#FFFFFFFF";; load_program ("ADD 1" +:+ LF +:+ "ST A"))
      init.
Proof. exact (load_program_concat "LD 16#FFFFFFFF" _ init). Defined.

(** ** Registers and literals as operands *)

Lemma execute_store_state s variable a :
  masked (registers s) ->
  registers s !! "ACC" = Some (VInt a) ->
  0 <= a < 2 ^ 32 ->
  execute (StoreCommand variable) s
  = (Returned tt, set_registers (<[variable := VInt a]> (registers s)) s).
Proof.
  intros Hm Ha Hra. unfold execute. unfold_calls. rewrite Ha.
  registers_goal.
  rewrite normalize_insert, (normalize_id _ Hm). cbn [to_int].
  rewrite (mask32_small a Hra). reflexivity.
Qed.

Lemma execute_load_state s e v :
  masked (registers s) ->
  evaluate_expression e s = (Returned v, s) ->
  0 <= v < 2 ^ 32 ->
  execute (LoadCommand e) s
  = (Returned tt, set_registers (<["ACC" := VInt v]> (registers s)) s).
Proof.
  intros Hm He Hrv. unfold execute. unfold_calls. rewrite He.
  registers_goal.
  rewrite normalize_insert, (normalize_id _ Hm). cbn [to_int].
  rewrite mask32_idem, (mask32_small v Hrv). reflexivity.
Qed.

(** X18: for a name that is not a string of digits and does not start
    with 16#, ST name followed by LD name leaves both the register and ACC
    equal to the value ACC had; the LD changes nothing. *)
Theorem store_then_load s name a :
  reachable s ->
  registers s !! "ACC" = Some (VInt a) ->
  literal_like name = false ->
  exists s1 s2,
    execute (StoreCommand name) s = (Returned tt, s1)
    /\ execute (LoadCommand name) s1 = (Returned tt, s2)
    /\ s2 = s1
    /\ registers s2 !! name = Some (VInt a)
    /\ registers s2 !! "ACC" = Some (VInt a).
Proof.
  intros Hr Ha Hlit.
  unfold literal_like in Hlit. apply orb_false_elim in Hlit as [Hd Hh].
  destruct (reachable_registers s Hr) as [Hm _].
  destruct (Hm _ _ Ha) as (a' & [= <-] & Hra).
  pose proof (execute_store_state s name a Hm Ha Hra) as Hst.
  set (s1 := set_registers (<[name := VInt a]> (registers s)) s) in *.
  assert (Hn1 : registers s1 !! name = Some (VInt a))
    by (simpl; apply lookup_insert_eq).
  assert (Ha1 : registers s1 !! "ACC" = Some (VInt a)).
  { simpl. destruct (decide (name = "ACC")) as [->|Hne].
    - apply lookup_insert_eq.
    - rewrite lookup_insert_ne by exact Hne. exact Ha. }
  assert (Hm1 : masked (registers s1)).
  { intros k v. simpl. destruct (decide (name = k)) as [->|Hne].
    - rewrite lookup_insert_eq. intros [= <-]. exists a. auto.
    - rewrite lookup_insert_ne by exact Hne. apply Hm. }
  assert (He : evaluate_expression name s1 = (Returned a, s1)).
  { unfold evaluate_expression, evaluate_expression_try.
    rewrite Hd, Hh, Hn1. simpl. rewrite (mask32_small a Hra). reflexivity. }
  exists s1, s1. split; [exact Hst|].
  split; [|auto].
  rewrite (execute_load_state s1 name a Hm1 He Hra).
  rewrite (insert_id _ _ _ Ha1), set_registers_id. reflexivity.
Qed.

Lemma store_then_load_witness :
  exists s1,
    execute (StoreCommand "Total") acc12 = (Returned tt, s1)
    /\ execute (LoadCommand "Total") s1 = (Returned tt, s1)
    /\ registers s1 !! "Total" = Some (VInt 12).
Proof.
  destruct acc12_facts as (Hr & Ha & _).
  destruct (store_then_load acc12 "Total" 12 Hr Ha eq_refl)
    as (s1 & s2 & H1 & H2 & -> & Hn & _).
  exists s1. auto.
Defined.

(** X19: ST accepts a name that reads as a literal (digits, or
    starting with 16#) and creates that register, but an operand of that
    name still evaluates as the literal, as on a fresh interpreter: the
    register cannot be read back. *)
Theorem literal_shadows_register s name a :
  reachable s ->
  registers s !! "ACC" = Some (VInt a) ->
  literal_like name = true ->
  exists s1,
    execute (StoreCommand name) s = (Returned tt, s1)
    /\ registers s1 !! name = Some (VInt a)
    /\ evaluate_expression name s1
       = (fst (evaluate_expression name init), s1).
Proof.
  intros Hr Ha Hlit.
  destruct (reachable_registers s Hr) as [Hm _].
  destruct (Hm _ _ Ha) as (a' & [= <-] & Hra).
  destruct (execute_store s name _ Ha) as (s1 & Hst & Hn & _).
  exists s1. split; [exact Hst|].
  split; [rewrite Hn; simpl; rewrite (mask32_small a Hra); reflexivity|].
  unfold literal_like in Hlit.
  unfold evaluate_expression, evaluate_expression_try.
  destruct (PyStr.isdigit name).
  - destruct (PyStr.int_decimal name); reflexivity.
  - cbn [orb] in Hlit. rewrite Hlit.
    destruct (PyStr.int_hex _); reflexivity.
Qed.

Lemma literal_shadows_register_witness :
  exists s1,
    execute (StoreCommand "5") acc12 = (Returned tt, s1)
    /\ registers s1 !! "5" = Some (VInt 12)
    /\ evaluate_expression "5" s1 = (Returned 5, s1).
Proof.
  destruct acc12_facts as (Hr & Ha & _).
  destruct (literal_shadows_register acc12 "5" 12 Hr Ha eq_refl)
    as (s1 & H1 & H2 & H3).
  exists s1. auto.
Defined.

(** ** Literals *)

(** X20: the decimal literal of n, for n below 10^10, evaluates to
    n mod 2^32 whatever the registers. *)
Theorem decimal_literal_wraps regs n :
  0 <= n < 10 ^ 10 ->
  evaluate_expression_try regs (numeral n) = Returned (n mod 2 ^ 32).
Proof.
  intros Hn. unfold evaluate_expression_try, numeral.
  assert (Hd : PyStr.forallb PyStr.is_decimal_char (numeral_digits 10 n "")
               = true)
    by (apply numeral_digits_decimal; [lia|reflexivity]).
  assert (Hne : PyStr.is_empty (numeral_digits 10 n "") = false)
    by apply numeral_digits_nonempty.
  assert (Hdig : PyStr.isdigit (numeral_digits 10 n "") = true).
  { unfold PyStr.isdigit. rewrite Hne. cbn [negb andb].
    apply (forallb_weaken PyStr.is_decimal_char); [|exact Hd].
    intros c Hc. unfold PyStr.is_digit_char. rewrite Hc. reflexivity. }
  rewrite Hdig. unfold PyStr.int_decimal. rewrite Hne, Hd.
  cbn [negb andb].
  rewrite numeral_digits_value by exact Hn.
  cbn [PyStr.decimal_value]. rewrite mask32_mod. reflexivity.
Qed.

Lemma decimal_literal_wraps_witness :
  evaluate_expression_try ∅ "4294967301" = Returned 5.
Proof.
  apply (decimal_literal_wraps ∅ 4294967301). lia.
Defined.

(** ** debug_registers *)

(** X22: [debug_registers] keeps the keys, turns every bool into 1 or
    0 and every integer into its residue mod 2^32, changes nothing else, and
    applied again changes nothing. *)
Theorem debug_registers_normalizes s :
  exists s',
    debug_registers s = (Returned tt, s')
    /\ masked (registers s')
    /\ dom (registers s') = dom (registers s)
    /\ (forall name b,
          registers s !! name = Some (VBool b) ->
          registers s' !! name = Some (VInt (if b then 1 else 0)))
    /\ (forall name z,
          registers s !! name = Some (VInt z) ->
          registers s' !! name = Some (VInt (z mod 2 ^ 32)))
    /\ debug_registers s' = (Returned tt, s')
    /\ program s' = program s /\ program_counter s' = program_counter s
    /\ labels s' = labels s.
Proof.
  eexists. split; [reflexivity|]. simpl.
  change ((fun v => VInt (mask32 (to_int v))) <$> registers s)
    with (normalize (registers s)).
  split; [apply normalize_masked|].
  split; [unfold normalize; apply dom_fmap_L|].
  split; [intros name b H; rewrite normalize_lookup, H; destruct b; reflexivity|].
  split; [intros name z H; rewrite normalize_lookup, H; simpl;
          rewrite mask32_mod; reflexivity|].
  split; [|auto].
  apply debug_registers_masked. simpl. apply normalize_masked.
Qed.

(** *** Hexadecimal literals *)

Lemma hex_char_facts d :
  0 <= d < 16 ->
  PyStr.hex_digit (hex_char d) = Some d /\ is_hex_upper (hex_char d) = true.
Proof.
  intros H.
  assert (d = 0 \/ d = 1 \/ d = 2 \/ d = 3 \/ d = 4 \/ d = 5 \/ d = 6
          \/ d = 7 \/ d = 8 \/ d = 9 \/ d = 10 \/ d = 11 \/ d = 12
          \/ d = 13 \/ d = 14 \/ d = 15) as Hd by lia.
  repeat (destruct Hd as [-> | Hd]; [split; reflexivity|]).
  subst d. split; reflexivity.
Qed.

Lemma is_hex_upper_not_special c :
  is_hex_upper c = true ->
  (PyStr.code c =? 95) = false /\ PyStr.is_int_space c = false
  /\ (PyStr.code c =? 43) = false /\ (PyStr.code c =? 45) = false
  /\ (PyStr.code c =? 120) = false /\ (PyStr.code c =? 88) = false.
Proof.
  unfold is_hex_upper, PyStr.is_int_space. intros H.
  apply orb_prop in H.
  assert (Hr : 48 <= PyStr.code c <= 57 \/ 65 <= PyStr.code c <= 70).
  { destruct H as [H|H]; apply andb_prop in H as [H1 H2];
      apply Z.leb_le in H1; apply Z.leb_le in H2; lia. }
  repeat match goal with
         | |- context [?a <=? ?b] =>
             let E := fresh in destruct (Z.leb_spec a b) as [E|E]
         | |- context [?a =? ?b] =>
             let E := fresh in destruct (Z.eqb_spec a b) as [E|E]
         end; try lia; repeat split; reflexivity.
Qed.

Lemma hex_digits_upper fuel : forall n tail,
  0 <= n ->
  PyStr.forallb is_hex_upper tail = true ->
  PyStr.forallb is_hex_upper (hex_digits fuel n tail) = true.
Proof.
  induction fuel as [|fuel IH]; intros n tail Hn Ht; [exact Ht|].
  cbn [hex_digits].
  pose proof (Z.mod_pos_bound n 16 ltac:(lia)) as Hm.
  assert (Hc : PyStr.forallb is_hex_upper (String (hex_char (n mod 16)) tail)
               = true).
  { cbn [PyStr.forallb]. rewrite Ht, (proj2 (hex_char_facts _ Hm)).
    reflexivity. }
  destruct (n <? 16); [exact Hc|].
  apply IH; [apply Z.div_pos; lia|exact Hc].
Qed.

Lemma hex_digits_S fuel n tail :
  hex_digits (S fuel) n tail
  = if n <? 16 then String (hex_char (n mod 16)) tail
    else hex_digits fuel (n / 16) (String (hex_char (n mod 16)) tail).
Proof. reflexivity. Qed.

Lemma hex_scan_digits fuel : forall n k tail,
  0 <= n < 16 ^ Z.of_nat (S fuel) ->
  exists k',
    PyStr.hex_scan false k 0 (hex_digits (S fuel) n tail)
    = PyStr.hex_scan false (S k') n tail.
Proof.
  induction fuel as [|fuel IH]; intros n k tail Hn;
    pose proof (Z.mod_pos_bound n 16 ltac:(lia)) as Hm;
    destruct (hex_char_facts _ Hm) as [Hd Hu];
    destruct (is_hex_upper_not_special _ Hu) as (Hus & _).
  - change (16 ^ Z.of_nat 1) with 16 in Hn.
    rewrite hex_digits_S. destruct (Z.ltb_spec n 16); [|lia].
    exists k. cbn [PyStr.hex_scan]. rewrite Hus, Hd.
    rewrite Z.mod_small by lia. f_equal.
  - rewrite hex_digits_S. destruct (Z.ltb_spec n 16).
    + exists k. cbn [PyStr.hex_scan]. rewrite Hus, Hd.
      rewrite Z.mod_small by lia. f_equal.
    + destruct (IH (n / 16) k (String (hex_char (n mod 16)) tail))
        as [k' Hk'].
      { rewrite Nat2Z.inj_succ, Z.pow_succ_r in Hn by lia.
        split; [apply Z.div_pos; lia|].
        apply Z.div_lt_upper_bound; lia. }
      exists (S k').
      rewrite Hk'. cbn [PyStr.hex_scan]. rewrite Hus, Hd. f_equal.
      pose proof (Z.div_mod n 16 ltac:(lia)). lia.
Qed.

Lemma int_hex_upper s :
  PyStr.forallb is_hex_upper s = true ->
  PyStr.int_hex s
  = match PyStr.hex_scan false 0 0 s with
    | Some v => Some (1 * v)
    | None => None
    end.
Proof.
  intros Hs. unfold PyStr.int_hex.
  destruct s as [|c0 s]; [reflexivity|].
  cbn [PyStr.forallb] in Hs. apply andb_prop in Hs as [H0 Hs].
  destruct (is_hex_upper_not_special _ H0) as (Hus & Hsp & Hplus & Hminus & _).
  cbn [PyStr.skip_int_space]. rewrite Hsp, Hplus, Hminus.
  assert (Hpre : PyStr.skip_hex_prefix (String c0 s) = String c0 s).
  { destruct s as [|c1 s]; [reflexivity|].
    cbn [PyStr.forallb] in Hs. apply andb_prop in Hs as [H1 _].
    destruct (is_hex_upper_not_special _ H1) as (_ & _ & _ & _ & Hx & HX).
    cbn [PyStr.skip_hex_prefix]. rewrite Hx, HX, andb_false_r. reflexivity. }
  rewrite Hpre, Hus. reflexivity.
Qed.

(** X21: for every 32-bit n, the literal 16# followed by the upper case
    hexadecimal digits of n evaluates to n whatever the registers. *)
Theorem hex_literal_evaluates regs n :
  0 <= n < 2 ^ 32 ->
  evaluate_expression_try regs (hex_literal n) = Returned n.
Proof.
  intros Hn. unfold evaluate_expression_try, hex_literal.
  change ("16#" +:+ hex_digits 8 n "")
    with (String "1" (String "6" (String "#" (hex_digits 8 n "")))).
  assert (Hdig : PyStr.isdigit
            (String "1" (String "6" (String "#" (hex_digits 8 n ""))))
          = false).
  { unfold PyStr.isdigit. cbn [PyStr.is_empty negb PyStr.forallb].
    change (PyStr.is_digit_char "#") with false.
    rewrite !andb_false_r. reflexivity. }
  rewrite Hdig.
  change (PyStr.startswith "16#"
            (String "1" (String "6" (String "#" (hex_digits 8 n "")))))
    with true.
  cbn [PyStr.drop].
  rewrite int_hex_upper by (apply hex_digits_upper; [lia|reflexivity]).
  destruct (hex_scan_digits 7 n 0 "") as [k' Hk'].
  { change (16 ^ Z.of_nat 8) with (2 ^ 32). exact Hn. }
  rewrite Hk'. cbn [PyStr.hex_scan].
  rewrite Z.mul_1_l, (mask32_small n Hn). reflexivity.
Qed.

Lemma hex_literal_evaluates_witness :
  hex_literal 4294967295 = "16#FFFFFFFF"
  /\ evaluate_expression_try ∅ "16#FFFFFFFF" = Returned 4294967295.
Proof.
  split; [vm_compute; reflexivity|].
  apply (hex_literal_evaluates ∅ 4294967295). lia.
Defined.

(** * Properties of the earlier variant (classes.py) *)

(** X23: in classes.py the register table starts empty, and every
    instruction other than LD and JMP raises KeyError 'ACC' while ACC is
    absent, before its operand is looked at, leaving the interpreter as it
    was. *)
Theorem classes_acc_missing c s :
  Classes.registers s !! "ACC" = None ->
  Classes.reads_acc c = true ->
  Classes.execute c s = (Raised (KeyError "ACC"), s).
Proof.
  intros Ha Hc.
  destruct c; try discriminate Hc; unfold Classes.execute, Classes.augmented,
    Classes.when_acc; rewrite Ha; reflexivity.
Qed.

Lemma classes_acc_missing_witness :
  Classes.execute (Classes.AddCommand "nosuch") Classes.init
  = (Raised (KeyError "ACC"), Classes.init)
  /\ Classes.load_and_run 1 "ST A"
     = Some (Raised (KeyError "ACC"), snd (Classes.load_program "ST A" Classes.init)).
Proof.
  split; [|vm_compute; reflexivity].
  apply (classes_acc_missing (Classes.AddCommand "nosuch") Classes.init);
    reflexivity.
Defined.



Lemma classes_evaluate_numeral regs n :
  0 <= n < 10 ^ 10 ->
  Classes.evaluate_expression regs (numeral n) = Returned (VInt n).
Proof.
  intros Hn. unfold Classes.evaluate_expression, numeral.
  assert (Hd : PyStr.forallb PyStr.is_decimal_char (numeral_digits 10 n "")
               = true)
    by (apply numeral_digits_decimal; [lia|reflexivity]).
  assert (Hne : PyStr.is_empty (numeral_digits 10 n "") = false)
    by apply numeral_digits_nonempty.
  assert (Hdig : PyStr.isdigit (numeral_digits 10 n "") = true).
  { unfold PyStr.isdigit. rewrite Hne. cbn [negb andb].
    apply (forallb_weaken PyStr.is_decimal_char); [|exact Hd].
    intros c Hc. unfold PyStr.is_digit_char. rewrite Hc. reflexivity. }
  rewrite Hdig. unfold PyStr.int_decimal. rewrite Hne, Hd.
  cbn [negb andb].
  rewrite numeral_digits_value by exact Hn. reflexivity.
Qed.

Lemma classes_run_turn fuel s c s1 :
  Classes.running s = true ->
  Classes.getitem (Classes.program s) (Classes.program_counter s) = Some c ->
  Classes.execute c s = (Returned tt, s1) ->
  Classes.run (S fuel) s
  = Classes.run fuel
      (Classes.set_program_counter (Classes.program_counter s1 + 1) s1).
Proof.
  intros Hrun Hg He. simpl. rewrite Hrun. unfold Classes.loop_body.
  rewrite Hg, He. reflexivity.
Qed.

(** X25: in classes.py nothing is masked: the commands LD n, ADD m,
    SUB k, ST A for decimal literals below 10^10 run to their end with A and
    ACC equal to n + m - k, which may exceed 2^32 - 1 or be negative. *)
Theorem classes_arithmetic_unbounded n m k :
  0 <= n < 10 ^ 10 -> 0 <= m < 10 ^ 10 -> 0 <= k < 10 ^ 10 ->
  exists final,
    Classes.run 4
      (Classes.set_program (classes_sum_program n m k) Classes.init)
    = Some (Returned tt, final)
    /\ Classes.registers final !! "A" = Some (VInt (n + m - k))
    /\ Classes.registers final !! "ACC" = Some (VInt (n + m - k)).
Proof.
  intros Hn Hm Hk.
  erewrite classes_run_turn; [|reflexivity|reflexivity|].
  2: { unfold Classes.execute. rewrite (classes_evaluate_numeral _ n Hn).
       reflexivity. }
  erewrite classes_run_turn; [|reflexivity|reflexivity|].
  2: { unfold Classes.execute, Classes.augmented.
       cbn [Classes.registers Classes.set_registers
              Classes.set_program_counter].
       rewrite lookup_insert_eq, (classes_evaluate_numeral _ m Hm).
       reflexivity. }
  erewrite classes_run_turn; [|reflexivity|reflexivity|].
  2: { unfold Classes.execute, Classes.augmented.
       cbn [Classes.registers Classes.set_registers
              Classes.set_program_counter].
       rewrite lookup_insert_eq, (classes_evaluate_numeral _ k Hk).
       reflexivity. }
  erewrite classes_run_turn; [|reflexivity|reflexivity|].
  2: { unfold Classes.execute.
       cbn [Classes.registers Classes.set_registers
              Classes.set_program_counter].
       rewrite lookup_insert_eq. reflexivity. }
  eexists. split; [reflexivity|].
  cbn [Classes.registers Classes.set_program_counter Classes.set_registers].
  rewrite lookup_insert_eq, lookup_insert_ne by discriminate.
  rewrite lookup_insert_eq.
  unfold Classes.py_sub, Classes.py_add. cbn [to_int]. auto.
Qed.

Lemma classes_arithmetic_unbounded_witness :
  exists final,
    Classes.load_and_run 4
      ("LD 4294967295" +:+ LF +:+ "ADD 1" +:+ LF +:+ "SUB 0" +:+ LF +:+ "ST A")
    = Some (Returned tt, final)
    /\ Classes.registers final !! "A" = Some (VInt 4294967296).
Proof.
  destruct (classes_arithmetic_unbounded 4294967295 1 0)
    as (final & Hrun & HA & _); [lia ..|].
  exists final. split; [|exact HA].
  rewrite <- Hrun. vm_compute. reflexivity.
Defined.

(** X26: in classes.py NOT stores the boolean negation of the truth
    value of ACC, so NOT twice leaves the truth value of ACC as a bool, which
    is the former ACC only when that was a bool. *)
Theorem classes_not_is_logical s acc :
  Classes.registers s !! "ACC" = Some acc ->
  exists s1 s2,
    Classes.execute Classes.NotCommand s = (Returned tt, s1)
    /\ Classes.registers s1 !! "ACC" = Some (VBool (negb (truthy acc)))
    /\ Classes.execute Classes.NotCommand s1 = (Returned tt, s2)
    /\ Classes.registers s2 !! "ACC" = Some (VBool (truthy acc))
    /\ (Classes.registers s2 !! "ACC" = Some acc <-> exists b, acc = VBool b).
Proof.
  intros Ha. eexists. eexists.
  split; [unfold Classes.execute; rewrite Ha; reflexivity|].
  split; [simpl; apply lookup_insert_eq|].
  split; [unfold Classes.execute; simpl; rewrite lookup_insert_eq; reflexivity|].
  simpl. rewrite lookup_insert_eq, negb_involutive.
  split; [reflexivity|].
  split.
  - intros [= <-]. eauto.
  - intros [b ->]. reflexivity.
Qed.

Lemma classes_not_is_logical_witness :
  exists s1 s2,
    Classes.execute Classes.NotCommand classes_acc5 = (Returned tt, s1)
    /\ Classes.execute Classes.NotCommand s1 = (Returned tt, s2)
    /\ Classes.registers s2 !! "ACC" = Some (VBool true).
Proof.
  destruct (classes_not_is_logical classes_acc5 (VInt 5))
    as (s1 & s2 & H1 & _ & H2 & H3 & _); [reflexivity|].
  exists s1, s2. auto.
Defined.

(** X27: in classes.py [parse] uses the first operand only: lines with
    the same mnemonic and first operand parse alike; a line of one token is
    NOT, or raises IndexError (a known mnemonic) or the ValueError naming the
    mnemonic; and a line parses to NOT exactly when its mnemonic is NOT,
    operands or not. *)
Theorem classes_parse_operands line m args :
  PyStr.split line = m :: args ->
  (forall line' a rest rest',
      args = a :: rest ->
      PyStr.split line' = m :: a :: rest' ->
      Classes.parse line' = Classes.parse line)
  /\ (args = [] ->
      Classes.parse line = Returned Classes.NotCommand
      \/ Classes.parse line = Raised IndexError
      \/ Classes.parse line = Raised (ValueError ("Unknown instruction " +:+ m)))
  /\ (Classes.parse line = Returned Classes.NotCommand <-> m = "NOT").
Proof.
  intros Hs. unfold Classes.parse. rewrite Hs.
  split; [|split].
  - intros line' a rest rest' -> ->. unfold Classes.unary.
    repeat match goal with
           | |- context [String.eqb m ?k] => destruct (String.eqb m k)
           end; reflexivity.
  - intros ->. unfold Classes.unary.
    repeat match goal with
           | |- context [String.eqb m ?k] => destruct (String.eqb m k)
           end; auto.
  - split.
    + unfold Classes.unary.
      repeat match goal with
             | |- context [String.eqb m ?k] =>
                 destruct (String.eqb_spec m k) as [->|_]
             end; try reflexivity; destruct args; discriminate.
    + intros ->. reflexivity.
Qed.

Lemma classes_parse_operands_witness :
  Classes.parse "LD 5 6 7" = Classes.parse "LD 5"
  /\ Classes.parse "LD 5" = Returned (Classes.LoadCommand "5")
  /\ Classes.parse "NOT 5" = Returned Classes.NotCommand.
Proof.
  destruct (classes_parse_operands "LD 5" "LD" ["5"] eq_refl) as (H1 & _).
  destruct (classes_parse_operands "NOT 5" "NOT" ["5"] eq_refl) as (_ & _ & H3).
  split; [apply (H1 "LD 5 6 7" "5" [] ["6"; "7"]); reflexivity|].
  split; [reflexivity|]. apply H3. reflexivity.
Defined.
